(** * quantfinance: dated collections of data frames

    A shallow embedding of
      - [utilities/utils.py]   : [create_datetime]
      - [core/base.py]         : [DataFrameCollection], [SecurityLevelData]
      - [quantfinance/utilities/pandas_utils.py] :
            [apply_columnwise], [dtype_specific_binary]
    followed by the properties of these functions.

    Python exceptions are values of [result]; objects that the code mutates
    in place (the caller's DataFrame) live in an explicit heap.  A [str] is
    held as its UTF-8 encoding, one [ascii] per byte.  Dictionary keys and
    the members of a tuple are compared as Python compares them, with
    [==] ([py_eq]), under which [True], [1] and [1.0] are one key.  Library
    functions whose text is not part of the repository ([datetime.strptime],
    [datetime.fromtimestamp], [int], the pandas dtype predicates) are the
    fields of a class; a reference instance of each class is given so that
    every definition can be run on concrete inputs. *)

From Stdlib Require Import ZArith Lia String Ascii OrdersEx.
From Stdlib Require QArith.
From stdpp Require Import base option list gmap strings sorting pretty.

Local Open Scope string_scope.
Local Open Scope list_scope.
Local Open Scope nat_scope.

(* ===================================================================== *)
(** ** Python values, exceptions and results *)
(* ===================================================================== *)

(** A Python [float]: [FFinite m e] is the number [m * 2^e].  No
    arithmetic is done on floats; they are only compared for equality. *)
Inductive pyfloat :=
| FNan
| FInf (negative : bool)
| FFinite (mantissa exponent : Z).

(** The scalars that appear as labels and as cells of a table. *)
Inductive pyval :=
| VNone
| VBool (b : bool)
| VInt (z : Z)
| VFloat (f : pyfloat)
| VStr (s : string).

(** The exceptions the modelled code raises or lets through.  A
    [ValueError] keeps its message template and the values formatted
    into it. *)
Inductive pyexc :=
| ValueError (msg : string) (args : list pyval)
| KeyError
| TypeError
| IndexError
| AttributeError
| OverflowError
| InvalidIndexError.

Inductive result (A : Type) :=
| Ok (a : A)
| Raise (e : pyexc).
Arguments Ok {A} a.
Arguments Raise {A} e.

#[global] Instance result_ret : MRet result := @Ok.
#[global] Instance result_bind : MBind result :=
  λ A B f m, match m with Ok a => f a | Raise e => Raise e end.
#[global] Instance result_fmap : FMap result :=
  λ A B f m, match m with Ok a => Ok (f a) | Raise e => Raise e end.



Definition is_value_error {A : Type} (r : result A) : bool :=
  match r with Raise (ValueError _ _) => true | _ => false end.

#[global] Instance pyfloat_eq_dec : EqDecision pyfloat.
Proof. solve_decision. Defined.
#[global] Instance pyval_eq_dec : EqDecision pyval.
Proof. solve_decision. Defined.
#[global] Instance pyexc_eq_dec : EqDecision pyexc.
Proof. solve_decision. Defined.

Definition pyfloat_code (f : pyfloat) : unit + bool + Z * Z :=
  match f with
  | FNan => inl (inl ())
  | FInf b => inl (inr b)
  | FFinite m e => inr (m, e)
  end.
Definition pyfloat_decode (c : unit + bool + Z * Z) : pyfloat :=
  match c with
  | inl (inl _) => FNan
  | inl (inr b) => FInf b
  | inr (m, e) => FFinite m e
  end.
#[global] Instance pyfloat_countable : Countable pyfloat.
Proof.
  apply (inj_countable' pyfloat_code pyfloat_decode).
  by intros [].
Defined.

Definition pyval_code (v : pyval) : unit + bool + Z + pyfloat + string :=
  match v with
  | VNone => inl (inl (inl (inl ())))
  | VBool b => inl (inl (inl (inr b)))
  | VInt z => inl (inl (inr z))
  | VFloat f => inl (inr f)
  | VStr s => inr s
  end.
Definition pyval_decode (c : unit + bool + Z + pyfloat + string) : pyval :=
  match c with
  | inl (inl (inl (inl _))) => VNone
  | inl (inl (inl (inr b))) => VBool b
  | inl (inl (inr z)) => VInt z
  | inl (inr f) => VFloat f
  | inr s => VStr s
  end.
#[global] Instance pyval_countable : Countable pyval.
Proof.
  apply (inj_countable' pyval_code pyval_decode).
  by intros [].
Defined.

(** The number a [bool], an [int] or a finite [float] stands for. *)
Definition num_of (v : pyval) : option QArith_base.Q :=
  match v with
  | VBool b => Some (QArith_base.inject_Z (if b then 1 else 0))
  | VInt z => Some (QArith_base.inject_Z z)
  | VFloat (FFinite m e) =>
      Some (QArith_base.Qmult (QArith_base.inject_Z m)
              (QArith_base.Qpower (QArith_base.inject_Z 2) e))
  | _ => None
  end.

(** [a == b] on scalars: numbers by value, whatever their type; strings,
    [None] and the infinities with themselves only.  A NaN stands for the
    one object [np.nan], which a container finds by identity. *)
Definition py_eq (a b : pyval) : bool :=
  match num_of a, num_of b with
  | Some x, Some y => QArith_base.Qeq_bool x y
  | None, None => bool_decide (a = b)
  | _, _ => false
  end.

(** [x in l] for a list or a tuple [l]. *)
Definition py_in (x : pyval) (l : list pyval) : bool := existsb (py_eq x) l.

(** No two elements are equal: what the keys of a [dict] always are, and
    what [Index.is_unique] tells of the labels of an index. *)
Fixpoint is_unique (l : list pyval) : bool :=
  match l with
  | [] => true
  | x :: l' => negb (py_in x l') && is_unique l'
  end.

(** [list(dict.fromkeys(l))]: the elements of [l] without those equal to
    an earlier one. *)
Definition py_keys (l : list pyval) : list pyval :=
  foldl (λ acc x, if py_in x acc then acc else acc ++ [x]) [] l.

(* ===================================================================== *)
(** ** [datetime] *)
(* ===================================================================== *)

(** A naive [datetime.datetime]. *)
Record datetime := mk_datetime {
  year : Z; month : Z; day : Z;
  hour : Z; minute : Z; second : Z; microsecond : Z
}.

#[global] Instance datetime_eq_dec : EqDecision datetime.
Proof. solve_decision. Defined.

Definition dt_fields (d : datetime) : list Z :=
  [year d; month d; day d; hour d; minute d; second d; microsecond d].

Definition datetime_code (d : datetime) : Z * Z * Z * Z * Z * Z * Z :=
  (year d, month d, day d, hour d, minute d, second d, microsecond d).
Definition datetime_decode (c : Z * Z * Z * Z * Z * Z * Z) : datetime :=
  let '(y, mo, d, h, mi, s, us) := c in mk_datetime y mo d h mi s us.
#[global] Instance datetime_countable : Countable datetime.
Proof.
  apply (inj_countable' datetime_code datetime_decode).
  by intros [].
Defined.

(** Naive datetimes compare field by field, most significant first. *)
Fixpoint lex_compare (a b : list Z) : comparison :=
  match a, b with
  | [], [] => Eq
  | [], _ :: _ => Lt
  | _ :: _, [] => Gt
  | x :: a', y :: b' =>
      match (x ?= y)%Z with
      | Eq => lex_compare a' b'
      | c => c
      end
  end.

Definition dt_compare (a b : datetime) : comparison :=
  lex_compare (dt_fields a) (dt_fields b).

Definition dt_lt (a b : datetime) : Prop := dt_compare a b = Lt.
Definition dt_le (a b : datetime) : Prop := dt_compare a b ≠ Gt.

(** A date at midnight. *)
Definition midnight (y m d : Z) : datetime := mk_datetime y m d 0 0 0 0.

(* ===================================================================== *)
(** ** Values used as dates *)
(* ===================================================================== *)

(** What callers hand over as a date: a [datetime], a [str], or an [int]
    (a compact date such as [20200704], or a POSIX timestamp). *)
Inductive pydate :=
| PyDatetime (d : datetime)
| PyStr (s : string)
| PyInt (z : Z).

#[global] Instance pydate_eq_dec : EqDecision pydate.
Proof. solve_decision. Defined.

Definition pydate_code (d : pydate) : datetime + string + Z :=
  match d with
  | PyDatetime d => inl (inl d)
  | PyStr s => inl (inr s)
  | PyInt z => inr z
  end.
Definition pydate_decode (c : datetime + string + Z) : pydate :=
  match c with
  | inl (inl d) => PyDatetime d
  | inl (inr s) => PyStr s
  | inr z => PyInt z
  end.
#[global] Instance pydate_countable : Countable pydate.
Proof.
  apply (inj_countable' pydate_code pydate_decode).
  by intros [].
Defined.

(** Python's three-way ordering of two such values; [None] stands for the
    [TypeError] that [<] raises between values of different types. *)
Definition py_compare (a b : pydate) : option comparison :=
  match a, b with
  | PyDatetime x, PyDatetime y => Some (dt_compare x y)
  | PyStr x, PyStr y => Some (String_as_OT.compare x y)
  | PyInt x, PyInt y => Some (x ?= y)%Z
  | _, _ => None
  end.

(** [a < b] *)
Definition py_lt (a b : pydate) : result bool :=
  match py_compare a b with
  | Some c => Ok (match c with Lt => true | _ => false end)
  | None => Raise TypeError
  end.

(** [str(date)] *)
Definition py_str (date : pydate) (repr_datetime : datetime → string) : string :=
  match date with
  | PyStr s => s
  | PyInt z => pretty z
  | PyDatetime d => repr_datetime d
  end.

Definition is_datetime (k : pydate) : bool :=
  match k with PyDatetime _ => true | _ => false end.

(* ===================================================================== *)
(** ** The library behind [create_datetime] *)
(* ===================================================================== *)

(** [datetime.strptime(s, fmt)], [datetime.fromtimestamp(n)] (local time)
    and [int(s)] for a string [s]. *)
Class DatetimeLib := {
  strptime : string → string → result datetime;
  fromtimestamp : Z → result datetime;
  int_of_str : string → result Z;
  str_of_datetime : datetime → string
}.

(** [re.search(c, s)] for a one-character pattern [c] that is not a
    regular-expression metacharacter: does [c] occur in [s]? *)
Fixpoint re_search (c : ascii) (s : string) : bool :=
  match s with
  | EmptyString => false
  | String c' s' => if Ascii.eqb c c' then true else re_search c s'
  end.

(** A continuation byte of UTF-8, [10xxxxxx]: every byte of a character but
    its first. *)
Definition is_continuation (c : ascii) : bool :=
  match c with
  | Ascii _ _ _ _ _ _ b6 b7 => b7 && negb b6
  end.

(** [len(s)]: the number of characters (code points) of [s], one per byte
    that starts a character. *)
Fixpoint py_len (s : string) : nat :=
  match s with
  | EmptyString => 0
  | String c s' => if is_continuation c then py_len s' else S (py_len s')
  end.

(** [int(date)] *)
Definition py_int `{DatetimeLib} (date : pydate) : result Z :=
  match date with
  | PyInt z => Ok z
  | PyStr s => int_of_str s
  | PyDatetime _ => Raise TypeError
  end.

(** [utils.create_datetime].  The [lru_cache] decorator memoises a pure
    function and is not visible in the result. *)
Definition create_datetime `{DatetimeLib}
    (date : pydate) (input_fmt : option string) (from_tstamp : bool) : result datetime :=
  match date with
  | PyDatetime d => Ok d
  | _ =>
      if from_tstamp then
        n ← py_int date; fromtimestamp n
      else
        let date := py_str date str_of_datetime in
        match input_fmt with
        | Some fmt => strptime date fmt
        | None =>
            if re_search "-" date then strptime date "%Y-%m-%d"
            else if re_search "/" date then strptime date "%m/%d/%Y"
            else if (py_len date =? 8)%nat then strptime date "%Y%m%d"
            else if (py_len date =? 6)%nat then strptime date "%Y%m"
            else Raise (ValueError "Cannot convert date_str - format not recognized!" [])
        end
  end.

(* ===================================================================== *)
(** ** A reference instance of the library *)
(* ===================================================================== *)

(** The instance below follows CPython on ASCII input for formats built
    from [%Y], [%m], [%d], [%%] and literal, non-blank characters, which
    covers the four formats [create_datetime] infers.  Any other format is
    answered with a [ValueError]; the theorems never rely on that.  Local
    time is taken to be UTC. *)
Module RefLib.

Inductive directive :=
| DirYear
| DirMonth
| DirDay
| DirLit (c : ascii).

Definition is_blank (c : ascii) : bool :=
  let n := nat_of_ascii c in
  ((n =? 32) || ((9 <=? n) && (n <=? 13)))%nat.

Fixpoint parse_format (fmt : list ascii) : option (list directive) :=
  match fmt with
  | [] => Some []
  | "%"%char :: c :: rest =>
      ds ← parse_format rest;
      if Ascii.eqb c "Y" then Some (DirYear :: ds)
      else if Ascii.eqb c "m" then Some (DirMonth :: ds)
      else if Ascii.eqb c "d" then Some (DirDay :: ds)
      else if Ascii.eqb c "%" then Some (DirLit "%" :: ds)
      else None
  | c :: rest =>
      if Ascii.eqb c "%" || is_blank c then None
      else ds ← parse_format rest; Some (DirLit c :: ds)
  end.

Definition same_directive (d x : directive) : bool :=
  match d, x with
  | DirYear, DirYear | DirMonth, DirMonth | DirDay, DirDay => true
  | _, _ => false
  end.

Definition count_dir (d : directive) (ds : list directive) : nat :=
  length (List.filter (same_directive d) ds).

Definition digit_val (c : ascii) : option Z :=
  let n := nat_of_ascii c in
  if ((48 <=? n) && (n <=? 57))%nat then Some (Z.of_nat n - 48)%Z else None.

(** The fields read so far: year, month, day. *)
Record ymd := mk_ymd { ymd_year : option Z; ymd_month : option Z; ymd_day : option Z }.

Definition in_range (lo hi : Z) (v : Z) : bool := ((lo <=? v) && (v <=? hi))%Z.

(** The alternatives of a directive's regular expression, in the order
    the regular expression lists them: each gives the number of
    characters it takes and the value it reads.
    [%m] is [1[0-2]|0[1-9]|[1-9]] and
    [%d] is [3[0-1]|[1-2]\d|0[1-9]|[1-9]| [1-9]]. *)
Definition two_digits (s : list ascii) : option Z :=
  match s with
  | a :: b :: _ => x ← digit_val a; y ← digit_val b; Some (10 * x + y)%Z
  | _ => None
  end.
Definition one_digit (s : list ascii) : option Z :=
  match s with
  | a :: _ => digit_val a
  | _ => None
  end.
Definition starts_with_zero (s : list ascii) : bool :=
  match s with
  | a :: _ => Ascii.eqb a "0"
  | _ => false
  end.

Definition month_alternatives (s : list ascii) : list (nat * Z) :=
  (match two_digits s with
   | Some v => if in_range 10 12 v then [(2%nat, v)] else []
   | None => []
   end) ++
  (match two_digits s with
   | Some v => if starts_with_zero s && in_range 1 9 v then [(2%nat, v)] else []
   | None => []
   end) ++
  (match one_digit s with
   | Some v => if in_range 1 9 v then [(1%nat, v)] else []
   | None => []
   end).

Definition day_alternatives (s : list ascii) : list (nat * Z) :=
  (match two_digits s with
   | Some v => if in_range 30 31 v then [(2%nat, v)] else []
   | None => []
   end) ++
  (match two_digits s with
   | Some v => if in_range 10 29 v then [(2%nat, v)] else []
   | None => []
   end) ++
  (match two_digits s with
   | Some v => if starts_with_zero s && in_range 1 9 v then [(2%nat, v)] else []
   | None => []
   end) ++
  (match one_digit s with
   | Some v => if in_range 1 9 v then [(1%nat, v)] else []
   | None => []
   end) ++
  (match s with
   | sp :: rest =>
       if Ascii.eqb sp " " then
         match one_digit rest with
         | Some v => if in_range 1 9 v then [(2%nat, v)] else []
         | None => []
         end
       else []
   | [] => []
   end).

(** The first alternative after which [k] succeeds: backtracking. *)
Fixpoint first_alternative {A : Type} (alts : list (nat * Z))
    (k : nat → Z → option A) : option A :=
  match alts with
  | [] => None
  | (n, v) :: alts' =>
      match k n v with
      | Some r => Some r
      | None => first_alternative alts' k
      end
  end.

(** Match the directives against a prefix of [s]; the result carries the
    unread rest. *)
Fixpoint match_directives (ds : list directive) (s : list ascii) (acc : ymd)
    : option (ymd * list ascii) :=
  match ds with
  | [] => Some (acc, s)
  | DirLit c :: ds' =>
      match s with
      | c' :: s' => if Ascii.eqb c c' then match_directives ds' s' acc else None
      | [] => None
      end
  | DirYear :: ds' =>
      match s with
      | a :: b :: c :: d :: s' =>
          match digit_val a, digit_val b, digit_val c, digit_val d with
          | Some x, Some y, Some z, Some w =>
              match_directives ds' s'
                (mk_ymd (Some (1000 * x + 100 * y + 10 * z + w)%Z) (ymd_month acc) (ymd_day acc))
          | _, _, _, _ => None
          end
      | _ => None
      end
  | DirMonth :: ds' =>
      first_alternative (month_alternatives s)
        (λ n v, match_directives ds' (drop n s) (mk_ymd (ymd_year acc) (Some v) (ymd_day acc)))
  | DirDay :: ds' =>
      first_alternative (day_alternatives s)
        (λ n v, match_directives ds' (drop n s) (mk_ymd (ymd_year acc) (ymd_month acc) (Some v)))
  end.

Definition is_leap (y : Z) : bool :=
  ((y mod 4 =? 0) && (negb (y mod 100 =? 0) || (y mod 400 =? 0)))%Z.

Definition days_in_month (y m : Z) : Z :=
  if (m =? 2)%Z then (if is_leap y then 29 else 28)%Z
  else if ((m =? 4) || (m =? 6) || (m =? 9) || (m =? 11))%Z then 30%Z
  else 31%Z.

Definition value_error {A : Type} (msg : string) : result A := Raise (ValueError msg []).

(** [datetime.strptime] *)
Definition strptime_ref (s fmt : string) : result datetime :=
  match parse_format (list_ascii_of_string fmt) with
  | None => value_error "format outside the reference instance"
  | Some ds =>
      if ((1 <? count_dir DirYear ds) || (1 <? count_dir DirMonth ds)
          || (1 <? count_dir DirDay ds))%nat
      then value_error "format outside the reference instance"
      else
        match match_directives ds (list_ascii_of_string s) (mk_ymd None None None) with
        | None => value_error "time data does not match format"
        | Some (_, _ :: _) => value_error "unconverted data remains"
        | Some (f, []) =>
            let y := default 1900%Z (ymd_year f) in
            let m := default 1%Z (ymd_month f) in
            let d := default 1%Z (ymd_day f) in
            if (y <? 1)%Z then value_error "year is out of range"
            else if (days_in_month y m <? d)%Z then value_error "day is out of range for month"
            else Ok (midnight y m d)
        end
  end.

(** Days since 1970-01-01 to a civil date (proleptic Gregorian). *)
Definition civil_from_days (days : Z) : Z * Z * Z :=
  let z := (days + 719468)%Z in
  let era := (z / 146097)%Z in
  let doe := (z - era * 146097)%Z in
  let yoe := ((doe - doe / 1460 + doe / 36524 - doe / 146096) / 365)%Z in
  let doy := (doe - (365 * yoe + yoe / 4 - yoe / 100))%Z in
  let mp := ((5 * doy + 2) / 153)%Z in
  let d := (doy - (153 * mp + 2) / 5 + 1)%Z in
  let m := (if (mp <? 10)%Z then mp + 3 else mp - 9)%Z in
  let y := (yoe + era * 400 + (if (m <=? 2)%Z then 1 else 0))%Z in
  (y, m, d).

(** [datetime.fromtimestamp] with UTC as the local zone, on a platform with
    a 64-bit [time_t] and the C library of Linux: a timestamp whose year
    does not fit the [int] of [struct tm] is an [OverflowError], a year
    outside [1 .. 9999] a [ValueError]. *)
Definition fromtimestamp_ref (n : Z) : result datetime :=
  if negb (in_range (-67768040609740800) 67768036191676799 n) then Raise OverflowError
  else
    let '(y, m, d) := civil_from_days (n / 86400) in
    let secs := (n mod 86400)%Z in
    if in_range 1 9999 y
    then Ok (mk_datetime y m d (secs / 3600) ((secs mod 3600) / 60) (secs mod 60) 0)
    else value_error "year is out of range".

(** [int(s)]: blanks around, an optional sign, then decimal digits that
    single underscores may separate. *)
Fixpoint strip_left (s : list ascii) : list ascii :=
  match s with
  | c :: s' => if is_blank c then strip_left s' else s
  | [] => []
  end.
Definition strip (s : list ascii) : list ascii :=
  rev (strip_left (rev (strip_left s))).

Fixpoint read_digits (s : list ascii) (acc : Z) (after_digit : bool) : option Z :=
  match s with
  | [] => if after_digit then Some acc else None
  | c :: s' =>
      match digit_val c with
      | Some v => read_digits s' (10 * acc + v)%Z true
      | None =>
          if Ascii.eqb c "_" && after_digit then read_digits s' acc false else None
      end
  end.

Definition int_of_str_ref (s : string) : result Z :=
  let body := strip (list_ascii_of_string s) in
  let '(neg, digits) :=
    match body with
    | "-"%char :: r => (true, r)
    | "+"%char :: r => (false, r)
    | r => (false, r)
    end in
  match read_digits digits 0%Z false with
  | Some v => Ok (if neg then (- v)%Z else v)
  | None => value_error "invalid literal for int() with base 10"
  end.

Definition two (z : Z) : string :=
  if (z <? 10)%Z then "0" ++ pretty z else pretty z.

(** [str(d)] for a datetime at a whole second. *)
Definition str_of_datetime_ref (d : datetime) : string :=
  pretty (year d) ++ "-" ++ two (month d) ++ "-" ++ two (day d) ++ " " ++
  two (hour d) ++ ":" ++ two (minute d) ++ ":" ++ two (second d).

#[global] Instance ref_lib : DatetimeLib := {|
  strptime := strptime_ref;
  fromtimestamp := fromtimestamp_ref;
  int_of_str := int_of_str_ref;
  str_of_datetime := str_of_datetime_ref
|}.

End RefLib.

(* ===================================================================== *)
(** ** pandas tables *)
(* ===================================================================== *)

(** One column of a table: its label, the name of its dtype, its cells
    (one per row, in row order). *)
Record Column := mk_Column {
  col_label : pyval;
  col_dtype : string;
  col_values : list pyval
}.

(** A [pandas.DataFrame] with a single-level row index. *)
Record DataFrame := mk_DataFrame {
  index_name : pyval;
  index : list pyval;
  columns : list Column
}.

(** A [pandas.Series]. *)
Record Series := mk_Series {
  s_name : pyval;
  s_index_name : pyval;
  s_index : list pyval;
  s_dtype : string;
  s_values : list pyval
}.

#[global] Instance Column_eq_dec : EqDecision Column.
Proof. solve_decision. Defined.
#[global] Instance DataFrame_eq_dec : EqDecision DataFrame.
Proof. solve_decision. Defined.
#[global] Instance Series_eq_dec : EqDecision Series.
Proof. solve_decision. Defined.
#[global] Instance DataFrame_inhabited : Inhabited DataFrame :=
  populate (mk_DataFrame VNone [] []).

(** [df.columns.tolist()] *)
Definition columns_tolist (df : DataFrame) : list pyval := col_label <$> columns df.

(** [df.index.names]: one name per level. *)
Definition index_names (df : DataFrame) : list pyval := [index_name df].


Definition has_label (lbl : pyval) (c : Column) : bool := bool_decide (col_label c = lbl).

(** The positions at which [lbl] stands in [l]. *)
Fixpoint positions_from (i : nat) (lbl : pyval) (l : list pyval) : list nat :=
  match l with
  | [] => []
  | x :: l' =>
      if decide (x = lbl) then i :: positions_from (S i) lbl l'
      else positions_from (S i) lbl l'
  end.
Definition positions (lbl : pyval) (l : list pyval) : list nat := positions_from 0 lbl l.

(** The cell of column [c] in row [i]; a table is rectangular, so the
    default is never used on one. *)
Definition cell (c : Column) (i : nat) : pyval := default VNone (col_values c !! i).

(** [df.set_index(lbl, inplace=True)]: the column labelled [lbl] leaves
    the columns and becomes the row index, named [lbl]; [KeyError] when no
    column has that label.  (Column labels are unique in the tables
    considered.) *)
Definition set_index (lbl : pyval) (df : DataFrame) : result DataFrame :=
  match List.find (has_label lbl) (columns df) with
  | None => Raise KeyError
  | Some c =>
      Ok (mk_DataFrame lbl (col_values c)
            (filter (λ c', col_label c' ≠ lbl) (columns df)))
  end.

(** What [df.loc[row, col]] selects: one cell when the row label and the
    column label each occur once, a block of cells otherwise. *)
Inductive selection :=
| Scalar (v : pyval)
| Block (cells : list (list pyval)).

#[global] Instance selection_eq_dec : EqDecision selection.
Proof. solve_decision. Defined.

(** [df.loc[row, col]]: [KeyError] when either label is absent. *)
Definition loc_cell (df : DataFrame) (row col : pyval) : result selection :=
  match filter (λ c, col_label c = col) (columns df), positions row (index df) with
  | [], _ => Raise KeyError
  | _, [] => Raise KeyError
  | [c], [i] => Ok (Scalar (cell c i))
  | cs, rows => Ok (Block ((λ i, (λ c, cell c i) <$> cs) <$> rows))
  end.

(** The heap of DataFrame objects: a [DatedDataFrame] and a collection
    hold references, so a table changed in place is changed for all its
    holders. *)
Definition loc := positive.
Abbreviation heap := (gmap loc DataFrame).

(* ===================================================================== *)
(** ** [core/base.py]: DataFrameCollection *)
(* ===================================================================== *)

Record DatedDataFrame := mk_DatedDataFrame {
  date : pydate;
  data_frame : loc;
  DATA_ID : pyval
}.

Record DataFrameField := mk_DataFrameField {
  NAME : pyval;
  UNIT : pyval;
  DEF_VAL : pyval
}.

(** [FIELDS] is an [OrderedDict]: an association list in insertion order,
    one entry per key. *)
Record DataFrameSchema := mk_DataFrameSchema {
  INDEX_LABEL : pyval;
  FIELDS : list (pyval * DataFrameField)
}.

(** The attributes of a [DataFrameCollection] object. *)
Record DataFrameCollection := mk_DataFrameCollection {
  self_DATA_ID : pyval;
  data : gmap pydate loc;
  data_dates : list pydate
}.

(** A total order that agrees with Python's [<] wherever [<] is defined
    (values of one type); [list.sort] is only ever run with it on such
    lists. *)
Definition kind_rank (k : pydate) : Z :=
  match k with
  | PyDatetime _ => 0
  | PyStr _ => 1
  | PyInt _ => 2
  end.

Definition key_compare (a b : pydate) : comparison :=
  match py_compare a b with
  | Some c => c
  | None => (kind_rank a ?= kind_rank b)%Z
  end.

Definition key_le (a b : pydate) : Prop := key_compare a b ≠ Gt.
Definition key_lt (a b : pydate) : Prop := key_compare a b = Lt.

#[global] Instance key_le_dec : RelDecision key_le.
Proof. intros a b. unfold key_le. apply _. Defined.
#[global] Instance key_lt_dec : RelDecision key_lt.
Proof. intros a b. unfold key_lt. apply _. Defined.

Definition same_kind (a b : pydate) : bool :=
  match py_compare a b with
  | Some _ => true
  | None => false
  end.

(** All elements have the type of the first one. *)
Definition sortable (l : list pydate) : bool :=
  match l with
  | [] => true
  | x :: l' => forallb (same_kind x) l'
  end.

(** [l.sort()]: the sorted permutation of [l]; [TypeError] when two of the
    elements cannot be compared (any sort of two or more elements of
    mixed types compares two of different types). *)
Definition list_sort (l : list pydate) : result (list pydate) :=
  if sortable l then Ok (merge_sort key_le l) else Raise TypeError.

(** [DataFrameCollection.add_data] on the object: the object as the call
    leaves it, and how the call ends.  The key is stored and [data_dates]
    replaced by the list of the keys before [sort] runs, so a [sort] that
    raises leaves both behind.  Python does not say in which order a
    [sort] that raises leaves the list; the model leaves it as it was
    handed over, and the properties of that state hold of every order. *)
Definition add_data_run (self : DataFrameCollection) (dated_df : DatedDataFrame)
    : DataFrameCollection * result () :=
  let data' := <[date dated_df := data_frame dated_df]> (data self) in
  let keys := (map_to_list data').*1 in
  match list_sort keys with
  | Ok dates => (mk_DataFrameCollection (self_DATA_ID self) data' dates, Ok ())
  | Raise e => (mk_DataFrameCollection (self_DATA_ID self) data' keys, Raise e)
  end.

(** [DataFrameCollection.add_data], for the code that goes on after the
    call: the object after a call that returns. *)
Definition add_data (self : DataFrameCollection) (dated_df : DatedDataFrame)
    : result DataFrameCollection :=
  let '(self', r) := add_data_run self dated_df in
  _ ← r; Ok self'.

(** [DataFrameCollection.__init__] *)
Definition DataFrameCollection_init (dated_df : DatedDataFrame) : result DataFrameCollection :=
  add_data (mk_DataFrameCollection (DATA_ID dated_df) ∅ []) dated_df.

(** [bisect.bisect_right(a, x)]: the binary search of the standard
    library, [lo, hi = 0, len(a)], halving while [lo < hi].  [fuel] bounds
    the number of rounds; [length a] rounds are enough (lemma
    [bisect_loop_fuel]). *)
Fixpoint bisect_loop (fuel : nat) (a : list pydate) (x : pydate) (lo hi : nat) : result nat :=
  match fuel with
  | O => Ok lo
  | S fuel' =>
      if (lo <? hi)%nat then
        let mid := ((lo + hi) / 2)%nat in
        match a !! mid with
        | None => Raise IndexError
        | Some am =>
            py_lt x am ≫= λ b : bool,
              if b then bisect_loop fuel' a x lo mid
              else bisect_loop fuel' a x (mid + 1) hi
        end
      else Ok lo
  end.

Definition bisect_right (a : list pydate) (x : pydate) : result nat :=
  bisect_loop (length a) a x 0 (length a).

(** [DataFrameCollection.get_last_data_date] *)
Definition get_last_data_date `{DatetimeLib} (self : DataFrameCollection) (date : pydate)
    : result pydate :=
  d ← create_datetime date None false;
  let date := PyDatetime d in
  match data self !! date with
  | Some _ => Ok date
  | None =>
      i ← bisect_right (data_dates self) date;
      if (0 <? i)%nat then
        match data_dates self !! (i - 1)%nat with
        | Some k => Ok k
        | None => Raise IndexError
        end
      else Raise (ValueError "No Earlier Data Available!" [])
  end.

(** [utils.get_current_date(dt=True)]: today at midnight, [now] being the
    reading of the clock. *)
Definition get_current_date (now : datetime) : datetime :=
  mk_datetime (year now) (month now) (day now) 0 0 0 0.

(** [DataFrameCollection.get_latest_data] *)
Definition get_latest_data `{DatetimeLib} (now : datetime) (self : DataFrameCollection)
    (date : option pydate) : result loc :=
  let date := match date with
              | None => PyDatetime (get_current_date now)
              | Some d => d
              end in
  date ← get_last_data_date self date;
  match data self !! date with
  | Some l => Ok l
  | None => Raise KeyError
  end.

(* ===================================================================== *)
(** ** [core/base.py]: SecurityLevelData *)
(* ===================================================================== *)

(** A [dict] or an [OrderedDict]: its items in insertion order.  No two
    keys of a dictionary are equal under [==]. *)
Definition pydict (V : Type) : Type := list (pyval * V).

(** The [unit] and [def_val] arguments: a scalar ([None] included) or a
    [dict] from column labels to scalars. *)
Inductive pyarg :=
| ArgVal (v : pyval)
| ArgDict (d : pydict pyval).

Definition is_None (a : pyarg) : bool :=
  match a with ArgVal VNone => true | _ => false end.
Definition type_is_str (a : pyarg) : bool :=
  match a with ArgVal (VStr _) => true | _ => false end.
Definition type_is_dict (a : pyarg) : bool :=
  match a with ArgDict _ => true | _ => false end.
Definition type_is_int_or_float (a : pyarg) : bool :=
  match a with ArgVal (VInt _) | ArgVal (VFloat _) => true | _ => false end.

(** [od[k] = v] on a [dict] or an [OrderedDict]: a key equal to [k] keeps
    its place and stays the key object; only its value is replaced. *)
Fixpoint od_set {V : Type} (k : pyval) (v : V) (od : pydict V) : pydict V :=
  match od with
  | [] => [(k, v)]
  | (k', v') :: od' =>
      if py_eq k k' then (k', v) :: od' else (k', v') :: od_set k v od'
  end.

(** [od[k]], with [None] for the [KeyError] of a missing key. *)
Fixpoint od_get {V : Type} (k : pyval) (od : pydict V) : option V :=
  match od with
  | [] => None
  | (k', v') :: od' => if py_eq k k' then Some v' else od_get k od'
  end.

(** [{f: v for f in fl}] *)
Definition dict_of_keys (fl : list pyval) (v : pyval) : pydict pyval :=
  foldl (λ d f, od_set f v d) [] fl.

(** [d.update(other)] *)
Definition dict_update (d other : pydict pyval) : pydict pyval :=
  foldl (λ d kv, od_set kv.1 kv.2 d) d other.

(** [d.get(k)] *)
Definition dict_get (d : pydict pyval) (k : pyval) : pyval := default VNone (od_get k d).

Record SecurityLevelData := mk_SecurityLevelData {
  base : DataFrameCollection;
  schema : DataFrameSchema
}.

Definition SEC_ID : pyval := VStr "SEC_ID".

(** Lines 139-153 of [__init__]: the units and default values per column. *)
Definition init_metadata (fl : list pyval) (unit def_val : pyarg)
    : result (pydict pyval * pydict pyval) :=
  let units : pydict pyval := [] in
  let def_vals : pydict pyval := [] in
  if negb (is_None unit) || negb (is_None def_val) then
    units ←
      (if negb (type_is_str unit || type_is_dict unit) then
         Raise (ValueError "Unit Type must be a single STR or dict!" [])
       else
         match unit with
         | ArgVal u => Ok (dict_of_keys fl u)
         | ArgDict d => Ok (dict_update units d)
         end);
    def_vals ←
      (if negb (type_is_int_or_float def_val || type_is_dict def_val) then
         Raise (ValueError "Default Value must be a single INT, FLOAT or dict!" [])
       else
         match def_val with
         | ArgVal v => Ok (dict_of_keys fl v)
         | ArgDict d => Ok (dict_update def_vals d)
         end);
    Ok (units, def_vals)
  else Ok (units, def_vals).

(** Lines 155-157: one [DataFrameField] per column, in column order. *)
Definition init_fields (fl : list pyval) (units def_vals : pydict pyval)
    : pydict DataFrameField :=
  foldl (λ fields f,
           od_set f (mk_DataFrameField f (dict_get units f) (dict_get def_vals f)) fields)
        [] fl.

(** Lines 161-176: the row index must be labelled [SEC_ID]; if it is not,
    the column of that label is promoted in place. *)
Definition init_index (h : heap) (l : loc) (index_label : pyval) : result heap :=
  let df := h !!! l in
  let primary_ind_label := index_name df in
  let primary_ind_label :=
    if decide (primary_ind_label = VNone)
    then default VNone (head (index_names df))
    else primary_ind_label in
  if decide (primary_ind_label ≠ index_label) then
    match set_index index_label df with
    | Ok df' => Ok (<[l := df']> h)
    | Raise KeyError => Raise (ValueError "DataFrame must include 'SEC_ID' column" [])
    | Raise e => Raise e
    end
  else Ok h.

(** [SecurityLevelData.__init__]: the object built and the heap after the
    call.  An exception leaves the heap as it was. *)
Definition SecurityLevelData_init (h : heap) (dated_df : DatedDataFrame)
    (unit def_val : pyarg) : result (SecurityLevelData * heap) :=
  let fl := columns_tolist (h !!! data_frame dated_df) in
  '(units, def_vals) ← init_metadata fl unit def_val;
  let fields := init_fields fl units def_vals in
  let schema := mk_DataFrameSchema SEC_ID fields in
  h' ← init_index h (data_frame dated_df) (INDEX_LABEL schema);
  base ← DataFrameCollection_init dated_df;
  Ok (mk_SecurityLevelData base schema, h').

(** [SecurityLevelData.get_field_names] *)
Definition get_field_names (self : SecurityLevelData) : list pyval :=
  (FIELDS (schema self)).*1.

(** [SecurityLevelData.get_value] *)
Definition get_value `{DatetimeLib} (now : datetime) (h : heap) (self : SecurityLevelData)
    (sec_id field : pyval) (date : option pydate) : result selection :=
  l ← get_latest_data now (base self) date;
  let df := h !!! l in
  if py_in field (get_field_names self) then
    match loc_cell df sec_id field with
    | Ok v => Ok v
    | Raise KeyError =>
        match od_get field (FIELDS (schema self)) with
        | Some f => Ok (Scalar (DEF_VAL f))
        | None => Raise KeyError
        end
    | Raise e => Raise e
    end
  else Raise (ValueError "%s Field not found in data schema!" [field]).

(* ===================================================================== *)
(** ** [pandas_utils.py] *)
(* ===================================================================== *)

(** What a binary function is handed and returns: a [Series], or the
    array of values behind one ([.values]). *)
Inductive pdvalue :=
| PSeries (s : Series)
| PArray (dtype : string) (values : list pyval).

#[global] Instance pdvalue_eq_dec : EqDecision pdvalue.
Proof. solve_decision. Defined.


(** A user-supplied function of two arguments. *)
Definition binary := pdvalue → pdvalue → result pdvalue.




















(** The dtype predicates of [pandas.core.dtypes.api], on the name of a
    dtype. *)
Class DtypeApi := {
  is_numeric_dtype : string → bool;
  is_datetime64_any_dtype : string → bool;
  is_timedelta64_dtype : string → bool;
  is_timedelta64_ns_dtype : string → bool;
  is_bool_dtype : string → bool;
  is_string_dtype : string → bool;
  is_categorical_dtype : string → bool;
  is_interval_dtype : string → bool
}.

(** [v.dtype] *)
Definition dtype_of (v : pdvalue) : string :=
  match v with
  | PSeries s => s_dtype s
  | PArray dt _ => dt
  end.

(** [v.name] and [v.index] (the name of the index and its labels): an
    array has neither. *)
Definition name_of (v : pdvalue) : result pyval :=
  match v with
  | PSeries s => Ok (s_name s)
  | PArray _ _ => Raise AttributeError
  end.
Definition index_of (v : pdvalue) : result (pyval * list pyval) :=
  match v with
  | PSeries s => Ok (s_index_name s, s_index s)
  | PArray _ _ => Raise AttributeError
  end.

(** [pd.Series(np.nan, index=idx)] for an index [idx] given by its name
    and its labels: the new [Series] has no name of its own and keeps the
    index, name included. *)
Definition nan_series (idx : pyval * list pyval) : Series :=
  mk_Series VNone idx.1 idx.2 "float64" (replicate (length idx.2) (VFloat FNan)).

(** What a call hands back: the value returned and the warnings issued
    on the way. *)
Record returned := mk_returned {
  ret_value : pdvalue;
  ret_warnings : list (string * list pyval)
}.

Definition silently (r : result pdvalue) : result returned :=
  v ← r; Ok (mk_returned v []).

(** [dtype_specific_binary] *)
Definition dtype_specific_binary `{DtypeApi} (left right : pdvalue)
    (numerics datetimes bools strings categoricals intervals : binary)
    (errors : string) : result returned :=
  let _ld := dtype_of left in
  let _rd := dtype_of right in
  if is_numeric_dtype _ld && is_numeric_dtype _rd then
    silently (numerics left right)
  else if (is_datetime64_any_dtype _ld || is_timedelta64_dtype _ld || is_timedelta64_ns_dtype _ld)
          && (is_datetime64_any_dtype _rd || is_timedelta64_dtype _rd || is_timedelta64_ns_dtype _rd) then
    silently (datetimes left right)
  else if is_bool_dtype _ld && is_bool_dtype _rd then
    silently (bools left right)
  else if is_string_dtype _ld && is_string_dtype _rd then
    silently (strings left right)
  else if is_categorical_dtype _ld && is_categorical_dtype _rd then
    silently (categoricals left right)
  else if is_interval_dtype _ld && is_interval_dtype _rd then
    silently (intervals left right)
  else
    if String.eqb errors "raise" then
      Raise (ValueError "left and right do not have matching supported dtypes: {_ld.name}, {_rd.name}"
               [VStr _ld; VStr _rd])
    else
      ln ← name_of left;
      rn ← name_of right;
      idx ← index_of right;
      Ok (mk_returned (PSeries (nan_series idx))
            [("left: {left.name}, {_ld.name} and right: {right.name}, {_rd.name} do not have comparable dtypes, returning NaNs",
              [ln; VStr _ld; rn; VStr _rd])]).

(** The predicates as pandas answers them on the names of the usual
    dtypes.  [is_numeric_dtype] counts [bool] among the numeric dtypes;
    [is_string_dtype] accepts [object]. *)
Module PandasDtypes.

Definition one_of (names : list string) (dt : string) : bool :=
  existsb (String.eqb dt) names.

Definition numeric_names : list string :=
  ["int8"; "int16"; "int32"; "int64"; "uint8"; "uint16"; "uint32"; "uint64";
   "float16"; "float32"; "float64"; "complex64"; "complex128"; "bool"].

#[global] Instance pandas_api : DtypeApi := {|
  is_numeric_dtype := one_of numeric_names;
  is_datetime64_any_dtype := one_of ["datetime64[ns]"];
  is_timedelta64_dtype := one_of ["timedelta64[ns]"];
  is_timedelta64_ns_dtype := one_of ["timedelta64[ns]"];
  is_bool_dtype := one_of ["bool"];
  is_string_dtype := one_of ["object"; "string"];
  is_categorical_dtype := one_of ["category"];
  is_interval_dtype := String.prefix "interval"
|}.

End PandasDtypes.

(* ===================================================================== *)
(** ** The vocabulary of the properties *)
(* ===================================================================== *)

(** What a three-way comparison must satisfy to be a strict total order. *)
Record compare_order {A : Type} (cmp : A → A → comparison) : Prop := {
  cmp_eq : ∀ a b, cmp a b = Eq ↔ a = b;
  cmp_antisym : ∀ a b, cmp b a = CompOpp (cmp a b);
  cmp_trans : ∀ a b c, cmp a b = Lt → cmp b c = Lt → cmp a c = Lt
}.

(** Python's [a < b] holds. *)
Definition before (a b : pydate) : Prop := py_lt a b = Ok true.
(** Python's [b < a] is evaluated and does not hold: [a <= b]. *)
Definition not_after (a b : pydate) : Prop := py_lt b a = Ok false.

(** Any two elements can be compared. *)
Definition pairwise_kind (l : list pydate) : Prop :=
  ∀ a b, a ∈ l → b ∈ l → same_kind a b = true.

(** Sorted ascending for Python's [<]. *)
Definition py_sorted (l : list pydate) : Prop := StronglySorted before l.

(** The invariant of a collection: [data_dates] is sorted, has no
    repetition, and holds exactly the keys of [data]. *)
Record coll_inv (self : DataFrameCollection) : Prop := {
  inv_sorted : py_sorted (data_dates self);
  inv_nodup : NoDup (data_dates self);
  inv_keys : ∀ k, k ∈ data_dates self ↔ is_Some (data self !! k)
}.

(** [k] is a key of [data]. *)
Definition stored (self : DataFrameCollection) (k : pydate) : Prop :=
  is_Some (data self !! k).

(** Every key is a [datetime], as the class documents its mapping. *)
Definition datetime_keyed (self : DataFrameCollection) : Prop :=
  ∀ k, stored self k → is_datetime k = true.

(** [k] is the greatest stored key strictly below [q]. *)
Definition latest_before (self : DataFrameCollection) (q k : pydate) : Prop :=
  stored self k ∧ before k q ∧ ∀ k', stored self k' → before k' q → not_after k' k.

(** The character [c] occurs in [s]. *)
Definition occurs (c : ascii) (s : string) : Prop := c ∈ list_ascii_of_string s.

(** A collection with snapshots of 2021-01-31 and 2021-02-28. *)
Definition store1 : DataFrameCollection :=
  mk_DataFrameCollection (VStr "px")
    {[ PyDatetime (midnight 2021 1 31) := 1%positive;
       PyDatetime (midnight 2021 2 28) := 2%positive ]}
    [PyDatetime (midnight 2021 1 31); PyDatetime (midnight 2021 2 28)].

(** [unit] is a [str] or a [dict]; [def_val] is an [int], a [float] or a
    [dict]. *)
Definition unit_ok (a : pyarg) : bool := type_is_str a || type_is_dict a.
Definition def_val_ok (a : pyarg) : bool := type_is_int_or_float a || type_is_dict a.

(** The table [df] after its column [c] has become the row index. *)
Definition promoted (df : DataFrame) (c : Column) : DataFrame :=
  mk_DataFrame SEC_ID (col_values c)
    (filter (λ c', col_label c' ≠ SEC_ID) (columns df)).

(** The tables of the scenario: prices of A and B on 2021-01-31, of A
    alone on 2021-02-28. *)
Definition frame_jan : DataFrame :=
  mk_DataFrame SEC_ID [VStr "A"; VStr "B"]
    [mk_Column (VStr "PRICE") "int64" [VInt 10; VInt 20]].
Definition frame_feb : DataFrame :=
  mk_DataFrame SEC_ID [VStr "A"]
    [mk_Column (VStr "PRICE") "int64" [VInt 11]].
Definition scenario_heap : heap := {[ 1%positive := frame_jan; 2%positive := frame_feb ]}.
Definition snapshot_jan : DatedDataFrame :=
  mk_DatedDataFrame (PyDatetime (midnight 2021 1 31)) 1%positive (VStr "prices").
Definition snapshot_feb : DatedDataFrame :=
  mk_DatedDataFrame (PyDatetime (midnight 2021 2 28)) 2%positive (VStr "prices").
Definition price_default : pyarg := ArgDict [(VStr "PRICE", VInt 0)].
Definition clock : datetime := mk_datetime 2021 3 1 9 30 0 0.

(** The scenario from construction to the two lookups, with [unit] left
    open. *)
Definition scenario (unit : pyarg) : result (selection * selection) :=
  '(s, h) ← SecurityLevelData_init scenario_heap snapshot_jan unit price_default;
  b ← add_data (base s) snapshot_feb;
  let s' := mk_SecurityLevelData b (schema s) in
  v1 ← get_value clock h s' (VStr "B") (VStr "PRICE") (Some (PyStr "2021-02-28"));
  v2 ← get_value clock h s' (VStr "A") (VStr "PRICE") (Some (PyStr "2021-02-15"));
  Ok (v1, v2).

(** A table whose security identifiers are still a column. *)
Definition frame_raw : DataFrame :=
  mk_DataFrame VNone [VInt 0; VInt 1]
    [mk_Column (VStr "SEC_ID") "object" [VStr "A"; VStr "B"];
     mk_Column (VStr "PRICE") "int64" [VInt 10; VInt 20]].





(** Six functions that tell which one was called. *)
Definition mark (n : string) : binary := λ l r, Ok (PArray n []).

Definition bool_series : pdvalue :=
  PSeries (mk_Series (VStr "flag") VNone [VInt 0; VInt 1] "bool" [VBool true; VBool false]).
Definition int_series : pdvalue :=
  PSeries (mk_Series (VStr "n") VNone [VInt 0; VInt 1] "int64" [VInt 1; VInt 2]).
Definition str_series : pdvalue :=
  PSeries (mk_Series (VStr "s") VNone [VInt 0; VInt 1] "object" [VStr "a"; VStr "b"]).

(** The six tests of [dtype_specific_binary], in the order of the source. *)
Definition both_numeric `{DtypeApi} (l r : pdvalue) : bool :=
  is_numeric_dtype (dtype_of l) && is_numeric_dtype (dtype_of r).
Definition datetime_like `{DtypeApi} (dt : string) : bool :=
  is_datetime64_any_dtype dt || is_timedelta64_dtype dt || is_timedelta64_ns_dtype dt.
Definition both_datetime `{DtypeApi} (l r : pdvalue) : bool :=
  datetime_like (dtype_of l) && datetime_like (dtype_of r).
Definition both_bool `{DtypeApi} (l r : pdvalue) : bool :=
  is_bool_dtype (dtype_of l) && is_bool_dtype (dtype_of r).
Definition both_string `{DtypeApi} (l r : pdvalue) : bool :=
  is_string_dtype (dtype_of l) && is_string_dtype (dtype_of r).
Definition both_categorical `{DtypeApi} (l r : pdvalue) : bool :=
  is_categorical_dtype (dtype_of l) && is_categorical_dtype (dtype_of r).
Definition both_interval `{DtypeApi} (l r : pdvalue) : bool :=
  is_interval_dtype (dtype_of l) && is_interval_dtype (dtype_of r).

(* ===================================================================== *)
(** ** [core/base.py]: the other methods of the collection *)
(* ===================================================================== *)

(** [l.index(x)]: the first position of [x]. *)
Fixpoint list_index (x : pydate) (l : list pydate) : option nat :=
  match l with
  | [] => None
  | y :: l' => if decide (y = x) then Some 0 else S <$> list_index x l'
  end.

(** [DataFrameCollection.get_previous_date]; the first [ValueError] is
    that of [list.index], whose message names the value looked for. *)
Definition get_previous_date (self : DataFrameCollection) (date : pydate) : result pydate :=
  match list_index date (data_dates self) with
  | None => Raise (ValueError "%r is not in list" [])
  | Some i =>
      if i =? 0 then Raise (ValueError "No Earlier Data Available" [])
      else
        match data_dates self !! (i - 1) with
        | Some k => Ok k
        | None => Raise IndexError
        end
  end.

(** What [get_dated_data_frame] returns: a [DatedDataFrame]. *)
Definition get_dated_data_frame `{DatetimeLib} (now : datetime) (self : DataFrameCollection)
    (date : option pydate) : result DatedDataFrame :=
  let date := match date with
              | None => PyDatetime (get_current_date now)
              | Some d => d
              end in
  date ← get_last_data_date self date;
  match data self !! date with
  | Some l => Ok (mk_DatedDataFrame date l (self_DATA_ID self))
  | None => Raise KeyError
  end.




(* ===================================================================== *)
(** ** [utilities/utils.py]: strings and dictionaries *)
(* ===================================================================== *)

(** [s.startswith(p)] *)
Fixpoint startswith (p s : string) : bool :=
  match p, s with
  | EmptyString, _ => true
  | String a p', String b s' => Ascii.eqb a b && startswith p' s'
  | String _ _, EmptyString => false
  end.

(** [re.sub(pat, rep, s)] for a pattern and a replacement without
    special characters, the pattern not empty: every occurrence of [pat],
    found from the left and not overlapping, becomes [rep].  [skip] counts
    the characters of a match still to pass over. *)
Fixpoint re_sub_from (pat rep : string) (skip : nat) (s : string) : string :=
  match s with
  | EmptyString => EmptyString
  | String c s' =>
      match skip with
      | S k => re_sub_from pat rep k s'
      | O =>
          if startswith pat s
          then rep ++ re_sub_from pat rep (String.length pat - 1) s'
          else String c (re_sub_from pat rep 0 s')
      end
  end.
Definition re_sub (pat rep s : string) : string := re_sub_from pat rep 0 s.

(** [clean_amp] and [reverse_amp] *)
Definition clean_amp (name : string) : string := re_sub "&" "&amp;" name.
Definition reverse_amp (name : string) : string := re_sub "&amp;" "&" name.

(** The character class [[a-zA-Z0-9-.]]. *)
Definition name_char (c : ascii) : bool :=
  let n := nat_of_ascii c in
  ((97 <=? n) && (n <=? 122)) || ((65 <=? n) && (n <=? 90)) ||
  ((48 <=? n) && (n <=? 57)) || (n =? 45) || (n =? 46).

Definition backslash : ascii := ascii_of_nat 92.

(** [re.search(acc, s)] for [acc], two backslashes and then one or more
    characters of the class: is there a match? *)
Fixpoint search_unc (s : string) : bool :=
  match s with
  | String a ((String b (String c _)) as s') =>
      (Ascii.eqb a backslash && Ascii.eqb b backslash && name_char c) || search_unc s'
  | String _ s' => search_unc s'
  | EmptyString => false
  end.

(** The longest run of characters of the class at the start of [s]. *)
Fixpoint name_run (s : string) : string :=
  match s with
  | String c s' => if name_char c then String c (name_run s') else EmptyString
  | EmptyString => EmptyString
  end.

(** [re.search(mn, s)] for [mn], one or more characters of the class:
    the leftmost match, as long as it can be; [None] when there is none. *)
Fixpoint search_name (s : string) : option string :=
  match s with
  | String c s' => if name_char c then Some (name_run s) else search_name s'
  | EmptyString => None
  end.

(** [validate_machine_name] *)
Definition validate_machine_name (comp_name : string) : result string :=
  if search_unc comp_name then Ok comp_name
  else
    match search_name comp_name with
    | None => Raise (ValueError "Invalid Computer Name!" [])
    | Some base => Ok (String backslash (String backslash base))
    end.

(** [s.split(sep)] for a one-character separator. *)
Fixpoint str_split (sep : ascii) (s : string) : list string :=
  match s with
  | EmptyString => [EmptyString]
  | String c s' =>
      if Ascii.eqb c sep then EmptyString :: str_split sep s'
      else
        match str_split sep s' with
        | p :: ps => String c p :: ps
        | [] => [String c EmptyString]
        end
  end.

Definition newline : ascii := ascii_of_nat 10.

(** [s.rstrip('\n')] *)
Fixpoint rstrip_newline (s : string) : string :=
  match s with
  | EmptyString => EmptyString
  | String c s' =>
      match rstrip_newline s' with
      | EmptyString => if Ascii.eqb c newline then EmptyString else String c EmptyString
      | r => String c r
      end
  end.

(** One round of the loop of [load_properties]. *)
Definition load_line (properties : gmap string string) (line : string)
    : result (gmap string string) :=
  if startswith "#" line || startswith (String newline EmptyString) line then Ok properties
  else
    let tmp := str_split "=" line in
    match tmp !! 0, tmp !! 1 with
    | Some k, Some v => Ok (<[k := rstrip_newline v]> properties)
    | _, _ => Raise IndexError
    end.

(** [load_properties], on the lines the file gives. *)
Definition load_properties (lines : list string) : result (gmap string string) :=
  foldl (λ acc line, properties ← acc; load_line properties line) (Ok ∅) lines.

(** The [default_factory] argument: [None], a callable (what a call of
    it gives), or something else. *)
Inductive factory :=
| NoFactory
| Factory (make : result pyval)
| NotCallable.

(** A [DefaultOrderedDict]: its factory and its items in order. *)
Record DefaultOrderedDict := mk_DefaultOrderedDict {
  default_factory : factory;
  dod_items : list (pyval * pyval)
}.

(** [DefaultOrderedDict.__init__(default_factory, items)] *)
Definition DefaultOrderedDict_init (f : factory) (items : list (pyval * pyval))
    : result DefaultOrderedDict :=
  match f with
  | NotCallable => Raise TypeError
  | _ => Ok (mk_DefaultOrderedDict f (foldl (λ od kv, od_set kv.1 kv.2 od) [] items))
  end.



(** [DefaultOrderedDict.copy] *)
Definition DefaultOrderedDict_copy (self : DefaultOrderedDict) : result DefaultOrderedDict :=
  DefaultOrderedDict_init (default_factory self) (dod_items self).

(** A line the loop of [load_properties] skips. *)
Definition skipped (line : string) : bool :=
  startswith "#" line || startswith (String newline EmptyString) line.



(** The argument, when it is a [dict], is given by the items of one: no
    two keys are equal. *)
Definition keyed_once (a : pyarg) : bool :=
  match a with
  | ArgDict d => is_unique d.*1
  | ArgVal _ => true
  end.

(** The unit and the default value the constructor gives the field [f]. *)
Definition unit_for (unit : pyarg) (f : pyval) : pyval :=
  match unit with
  | ArgVal (VStr u) => VStr u
  | ArgDict d => dict_get d f
  | _ => VNone
  end.
Definition def_val_for (def_val : pyarg) (f : pyval) : pyval :=
  match def_val with
  | ArgVal (VInt z) => VInt z
  | ArgVal (VFloat x) => VFloat x
  | ArgDict d => dict_get d f
  | _ => VNone
  end.


(* ===================================================================== *)
(** * Properties *)
(* ===================================================================== *)

Example strptime_iso : RefLib.strptime_ref "2020-07-04" "%Y-%m-%d" = Ok (midnight 2020 7 4).
Proof. reflexivity. Qed.
Example create_us : create_datetime (PyStr "07/04/2020") None false = Ok (midnight 2020 7 4).
Proof. reflexivity. Qed.
Example create_compact : create_datetime (PyInt 20200704) None false = Ok (midnight 2020 7 4).
Proof. vm_compute. reflexivity. Qed.
Example create_ym : create_datetime (PyStr "202007") None false = Ok (midnight 2020 7 1).
Proof. reflexivity. Qed.
Example create_feb30 : is_value_error (create_datetime (PyStr "2021-02-30") None false) = true.
Proof. reflexivity. Qed.
Example create_ts : create_datetime (PyStr "1612137600") None true = Ok (midnight 2021 2 1).
Proof. vm_compute. reflexivity. Qed.
Example create_bad : is_value_error (create_datetime (PyStr "2020") None false) = true.
Proof. reflexivity. Qed.

(* --------------------------------------------------------------------- *)
(** ** Orders *)
(* --------------------------------------------------------------------- *)

Lemma Z_compare_order : compare_order Z.compare.
Proof.
  split.
  - intros a b. apply Z.compare_eq_iff.
  - intros a b. apply Z.compare_antisym.
  - intros a b c. rewrite !Z.compare_lt_iff. lia.
Qed.

Lemma lex_compare_eq a b : lex_compare a b = Eq ↔ a = b.
Proof.
  revert b. induction a as [|x a IH]; intros [|y b]; simpl; try (split; [done | congruence]).
  destruct (Z.compare_spec x y) as [->|Hlt|Hgt].
  - rewrite IH. split; congruence.
  - split; [done | intros [= ? ?]; lia].
  - split; [done | intros [= ? ?]; lia].
Qed.

Lemma lex_compare_antisym a b : lex_compare b a = CompOpp (lex_compare a b).
Proof.
  revert b. induction a as [|x a IH]; intros [|y b]; simpl; try done.
  rewrite (Z.compare_antisym x y).
  destruct (x ?= y)%Z; simpl; auto.
Qed.

Lemma lex_compare_trans a b c :
  lex_compare a b = Lt → lex_compare b c = Lt → lex_compare a c = Lt.
Proof.
  revert b c. induction a as [|x a IH]; intros [|y b] [|z c]; simpl; try done.
  destruct (Z.compare_spec x y) as [->|Hxy|Hxy]; try done.
  - destruct (Z.compare_spec y z) as [->|Hyz|Hyz]; try done. apply IH.
  - destruct (Z.compare_spec y z) as [->|Hyz|Hyz]; try done; intros _ _.
    + by apply Z.compare_lt_iff in Hxy as ->.
    + assert (x < z)%Z as Hxz by lia. by apply Z.compare_lt_iff in Hxz as ->.
Qed.

Lemma dt_fields_inj a b : dt_fields a = dt_fields b → a = b.
Proof. destruct a, b. unfold dt_fields; simpl. by intros [= -> -> -> -> -> -> ->]. Qed.

Lemma dt_compare_order : compare_order dt_compare.
Proof.
  split; unfold dt_compare.
  - intros a b. rewrite lex_compare_eq. split; [apply dt_fields_inj | by intros ->].
  - intros a b. apply lex_compare_antisym.
  - intros a b c. apply lex_compare_trans.
Qed.

Lemma string_compare_antisym a b :
  String_as_OT.compare b a = CompOpp (String_as_OT.compare a b).
Proof.
  destruct (String_as_OT.compare_spec a b) as [Heq|Hlt|Hgt];
    destruct (String_as_OT.compare_spec b a) as [Heq'|Hlt'|Hgt']; simpl; try done;
    unfold String_as_OT.eq in *; subst;
    try (exfalso; by eapply (StrictOrder_Irreflexive (R := String_as_OT.lt)));
    exfalso; eapply (StrictOrder_Irreflexive (R := String_as_OT.lt));
    eapply (StrictOrder_Transitive (R := String_as_OT.lt)); eassumption.
Qed.

Lemma string_compare_order : compare_order String_as_OT.compare.
Proof.
  split.
  - intros a b. destruct (String_as_OT.compare_spec a b) as [Heq|Hlt|Hgt].
    + done.
    + split; [done | intros ->].
      exfalso; by eapply (StrictOrder_Irreflexive (R := String_as_OT.lt)).
    + split; [done | intros ->].
      exfalso; by eapply (StrictOrder_Irreflexive (R := String_as_OT.lt)).
  - apply string_compare_antisym.
  - intros a b c. apply (StrictOrder_Transitive (R := String_as_OT.lt)).
Qed.

Lemma key_compare_order : compare_order key_compare.
Proof.
  pose proof Z_compare_order as [Ze Za Zt].
  pose proof dt_compare_order as [De Da Dt].
  pose proof string_compare_order as [Se Sa St].
  split.
  - intros [x|x|x] [y|y|y]; unfold key_compare; simpl; try (split; [done | congruence]).
    + rewrite De. split; congruence.
    + rewrite Se. split; congruence.
    + rewrite Ze. split; congruence.
  - intros [x|x|x] [y|y|y]; unfold key_compare; simpl; auto.
  - intros [x|x|x] [y|y|y] [z|z|z]; unfold key_compare; simpl; try done; eauto.
Qed.

Lemma key_compare_refl a : key_compare a a = Eq.
Proof. by apply key_compare_order. Qed.

Lemma key_lt_gt a b : key_compare a b = Lt ↔ key_compare b a = Gt.
Proof.
  rewrite (cmp_antisym _ key_compare_order a b).
  destruct (key_compare a b); simpl; split; congruence.
Qed.

#[global] Instance key_le_trans : Transitive key_le.
Proof.
  intros a b c. unfold key_le. intros Hab Hbc Hac.
  apply key_lt_gt in Hac.
  destruct (key_compare a b) eqn:E1; [| |done].
  - apply key_compare_order in E1 as ->. apply key_lt_gt in Hac. congruence.
  - destruct (key_compare b c) eqn:E2; [| |done].
    + apply key_compare_order in E2 as ->. apply key_lt_gt in Hac. congruence.
    + pose proof (cmp_trans _ key_compare_order _ _ _ E1 E2) as Hlt.
      apply key_lt_gt in Hac. congruence.
Qed.

#[global] Instance key_le_total : Total key_le.
Proof.
  intros a b. unfold key_le.
  destruct (key_compare a b) eqn:E; [left; done | left; done | right].
  apply key_lt_gt in E. congruence.
Qed.

#[global] Instance key_le_antisym : AntiSymm eq key_le.
Proof.
  intros a b. unfold key_le. intros Hab Hba.
  destruct (key_compare a b) eqn:E; [by apply key_compare_order in E | | done].
  apply key_lt_gt in E. congruence.
Qed.

#[global] Instance key_lt_trans : Transitive key_lt.
Proof. intros a b c. apply key_compare_order. Qed.

Lemma key_lt_irrefl a : ¬ key_lt a a.
Proof. unfold key_lt. by rewrite key_compare_refl. Qed.

Lemma key_le_lt a b : key_le a b → a ≠ b → key_lt a b.
Proof.
  unfold key_le, key_lt. intros Hle Hne.
  destruct (key_compare a b) eqn:E; [|done|done].
  by apply key_compare_order in E.
Qed.

Lemma before_key_lt a b : before a b ↔ same_kind a b = true ∧ key_lt a b.
Proof.
  unfold before, py_lt, same_kind, key_lt, key_compare.
  destruct (py_compare a b) as [[]|]; split; first [intros [? ?] | intros ?]; try done.
Qed.

Lemma not_after_key_le a b : not_after a b ↔ same_kind a b = true ∧ key_le a b.
Proof.
  unfold not_after, py_lt, same_kind, key_le.
  rewrite <- (not_iff_compat (key_lt_gt b a)). unfold key_compare.
  destruct a as [x|x|x], b as [y|y|y]; simpl;
    try (split; [done | by intros [? ?]]).
  - destruct (dt_compare y x); split; first [intros [? ?] | intros ?]; try done; by split.
  - destruct (String_as_OT.compare y x); split; first [intros [? ?] | intros ?]; try done; by split.
  - destruct (y ?= x)%Z; split; first [intros [? ?] | intros ?]; try done; by split.
Qed.

Lemma same_kind_sym a b : same_kind a b = same_kind b a.
Proof. by destruct a, b. Qed.

Lemma same_kind_trans a b c : same_kind a b = true → same_kind b c = true → same_kind a c = true.
Proof. by destruct a, b, c. Qed.

Lemma same_kind_datetime a b : is_datetime a = true → is_datetime b = true → same_kind a b = true.
Proof. by destruct a, b. Qed.

Lemma same_kind_refl a : same_kind a a = true.
Proof. by destruct a. Qed.

Lemma sortable_pairwise l : sortable l = true ↔ pairwise_kind l.
Proof.
  unfold pairwise_kind. destruct l as [|x l]; simpl.
  - split; [intros _ a b Ha | done]. by apply elem_of_nil in Ha.
  - rewrite forallb_forall. split.
    + intros Hall a b Ha Hb.
      assert (∀ c, c ∈ x :: l → same_kind x c = true) as Hx.
      { intros c [->|Hc]%elem_of_cons; [apply same_kind_refl|].
        apply Hall. by apply list_elem_of_In. }
      eapply same_kind_trans; [|by apply Hx].
      rewrite same_kind_sym. by apply Hx.
    + intros Hall c Hc. apply Hall; [left|right]. by apply list_elem_of_In.
Qed.

Lemma pairwise_kind_perm l l' : l ≡ₚ l' → pairwise_kind l → pairwise_kind l'.
Proof.
  intros Hp Hl a b Ha Hb. apply Hl; by rewrite Hp.
Qed.

Lemma py_sorted_pairwise l : py_sorted l → pairwise_kind l.
Proof.
  induction 1 as [|x l Hs IH Hx]; intros a b Ha Hb.
  - by apply elem_of_nil in Ha.
  - rewrite Forall_forall in Hx.
    apply elem_of_cons in Ha as [->|Ha]; apply elem_of_cons in Hb as [->|Hb].
    + apply same_kind_refl.
    + by apply before_key_lt, Hx.
    + rewrite same_kind_sym. by apply before_key_lt, Hx.
    + by apply IH.
Qed.

Lemma sorted_le_strict l :
  StronglySorted key_le l → NoDup l → pairwise_kind l → py_sorted l.
Proof.
  induction 1 as [|x l Hs IH Hx]; intros Hnd Hk; [constructor|].
  apply NoDup_cons in Hnd as [Hnotin Hnd].
  constructor.
  - apply IH; [done|]. intros a b Ha Hb. apply Hk; by right.
  - rewrite Forall_forall in Hx. apply Forall_forall. intros y Hy.
    apply before_key_lt. split.
    + apply Hk; [by left | by right].
    + apply key_le_lt; [by apply Hx|]. intros ->. done.
Qed.

Lemma py_sorted_key_lt l : py_sorted l → StronglySorted key_lt l.
Proof.
  induction 1 as [|x l Hs IH Hx]; constructor; [done|].
  eapply Forall_impl; [done|]. intros y Hy. by apply before_key_lt in Hy as [_ ?].
Qed.

Lemma py_sorted_NoDup l : py_sorted l → NoDup l.
Proof.
  induction 1 as [|x l Hs IH Hx]; constructor; [|done].
  intros Hin. rewrite Forall_forall in Hx. apply Hx in Hin.
  apply before_key_lt in Hin as [_ Hin]. by apply key_lt_irrefl in Hin.
Qed.

Lemma list_sort_Ok l l' :
  list_sort l = Ok l' → l' ≡ₚ l ∧ StronglySorted key_le l' ∧ pairwise_kind l.
Proof.
  unfold list_sort. destruct (sortable l) eqn:Hs; [|done]. intros [= <-].
  split; [apply merge_sort_Permutation|]. split.
  - apply (StronglySorted_merge_sort key_le); apply _.
  - by apply sortable_pairwise.
Qed.

Lemma list_sort_Raise l e : list_sort l = Raise e → e = TypeError ∧ sortable l = false.
Proof. unfold list_sort. destruct (sortable l); [done|]. by intros [= <-]. Qed.

Lemma list_sort_pairwise l : pairwise_kind l → ∃ l', list_sort l = Ok l'.
Proof.
  intros Hk%sortable_pairwise. unfold list_sort. rewrite Hk. eauto.
Qed.

Lemma list_sort_sorted l l' : NoDup l → list_sort l = Ok l' → py_sorted l' ∧ NoDup l'.
Proof.
  intros Hnd (Hp & Hs & Hk)%list_sort_Ok.
  assert (NoDup l') as Hnd' by by rewrite Hp.
  split; [|done]. apply sorted_le_strict; [done..|].
  by apply (pairwise_kind_perm l).
Qed.

(** A sorted list without repetition is determined by its elements. *)
Lemma py_sorted_unique l1 l2 : py_sorted l1 → py_sorted l2 → l1 ≡ₚ l2 → l1 = l2.
Proof.
  intros H1 H2 Hp.
  apply (StronglySorted_unique_strong key_lt); [|by apply py_sorted_key_lt..|done].
  intros x1 x2 _ _ Hlt Hgt. exfalso. apply (key_lt_irrefl x1). by etrans.
Qed.

Lemma keys_insert_present (m : gmap pydate loc) k v :
  is_Some (m !! k) → (map_to_list (<[k:=v]> m)).*1 ≡ₚ (map_to_list m).*1.
Proof.
  intros Hk. apply NoDup_Permutation; [apply NoDup_fst_map_to_list..|].
  intros x. rewrite !list_elem_of_fmap. split.
  - intros [[k' v'] [-> Hin%elem_of_map_to_list]]. simpl.
    destruct (decide (k = k')) as [<-|Hne].
    + destruct Hk as [w Hw]. exists (k, w). split; [done|]. by apply elem_of_map_to_list.
    + rewrite lookup_insert_ne in Hin by done. exists (k', v'). split; [done|].
      by apply elem_of_map_to_list.
  - intros [[k' v'] [-> Hin%elem_of_map_to_list]]. simpl.
    destruct (decide (k = k')) as [<-|Hne].
    + exists (k, v). split; [done|]. apply elem_of_map_to_list. by rewrite lookup_insert_eq.
    + exists (k', v'). split; [done|]. apply elem_of_map_to_list.
      by rewrite lookup_insert_ne.
Qed.

Lemma elem_of_keys (m : gmap pydate loc) k : k ∈ (map_to_list m).*1 ↔ is_Some (m !! k).
Proof.
  rewrite list_elem_of_fmap. split.
  - intros [[k' v'] [-> Hin%elem_of_map_to_list]]. eauto.
  - intros [v Hv]. exists (k, v). split; [done|]. by apply elem_of_map_to_list.
Qed.

(** A call of [add_data] returns when the keys can be sorted, and the
    object then holds the sorted keys. *)
Lemma add_data_eq self d :
  add_data self d =
    (dates ← list_sort (map_to_list (<[date d := data_frame d]> (data self))).*1;
     Ok (mk_DataFrameCollection (self_DATA_ID self)
           (<[date d := data_frame d]> (data self)) dates)).
Proof.
  unfold add_data, add_data_run. by destruct (list_sort _).
Qed.

Lemma add_data_run_Ok self d s' :
  add_data_run self d = (s', Ok ()) ↔ add_data self d = Ok s'.
Proof.
  unfold add_data, add_data_run. destruct (list_sort _); simpl; split; congruence.
Qed.

(** After a call of [add_data] that returns, the key list is the sorted
    list of the keys of [data]. *)
Lemma add_data_Ok self d s' :
  add_data self d = Ok s' →
  data s' = <[date d := data_frame d]> (data self) ∧
  self_DATA_ID s' = self_DATA_ID self ∧
  list_sort (map_to_list (data s')).*1 = Ok (data_dates s').
Proof.
  rewrite add_data_eq.
  destruct (list_sort _) as [l'|e] eqn:Hs; simpl; [|done].
  by intros [= <-].
Qed.

Lemma add_data_inv self d s' : add_data self d = Ok s' → coll_inv s'.
Proof.
  intros (Hd & _ & Hs)%add_data_Ok.
  pose proof (list_sort_sorted _ _ (NoDup_fst_map_to_list _) Hs) as [Hsorted Hnd].
  apply list_sort_Ok in Hs as (Hp & _ & _).
  split; [done..|]. intros k. rewrite Hp. apply elem_of_keys.
Qed.

Lemma coll_inv_keys_perm self : coll_inv self → data_dates self ≡ₚ (map_to_list (data self)).*1.
Proof.
  intros [Hs Hnd Hk]. apply NoDup_Permutation; [done|apply NoDup_fst_map_to_list|].
  intros k. by rewrite Hk, elem_of_keys.
Qed.

Lemma add_data_present self d :
  coll_inv self → is_Some (data self !! date d) →
  add_data self d =
    Ok (mk_DataFrameCollection (self_DATA_ID self)
          (<[date d := data_frame d]> (data self)) (data_dates self)).
Proof.
  intros Hinv Hk.
  pose proof (keys_insert_present _ _ (data_frame d) Hk) as Hp.
  pose proof (coll_inv_keys_perm _ Hinv) as Hp'.
  assert (pairwise_kind (map_to_list (<[date d:=data_frame d]> (data self))).*1) as Hpk.
  { eapply pairwise_kind_perm; [|apply py_sorted_pairwise, Hinv].
    by rewrite Hp, Hp'. }
  destruct (list_sort_pairwise _ Hpk) as [l' Hl'].
  rewrite add_data_eq, Hl'. simpl. do 2 f_equal.
  pose proof (list_sort_sorted _ _ (NoDup_fst_map_to_list _) Hl') as [Hsorted _].
  apply py_sorted_unique; [done|apply Hinv|].
  apply list_sort_Ok in Hl' as (Hq & _ & _). by rewrite Hq, Hp, Hp'.
Qed.

Lemma DataFrameCollection_init_eq d :
  DataFrameCollection_init d =
    Ok (mk_DataFrameCollection (DATA_ID d) {[date d := data_frame d]} [date d]).
Proof.
  unfold DataFrameCollection_init. rewrite add_data_eq. simpl.
  rewrite insert_empty, map_to_list_singleton. simpl. done.
Qed.

(* --------------------------------------------------------------------- *)
(** ** Binary search *)
(* --------------------------------------------------------------------- *)

Lemma mid_bounds lo hi : lo < hi → lo ≤ (lo + hi) / 2 < hi.
Proof.
  intros Hlt. pose proof (Nat.div_mod_eq (lo + hi) 2) as Hd.
  pose proof (Nat.mod_upper_bound (lo + hi) 2). lia.
Qed.

Lemma sorted_lookup_lt l i j a b :
  StronglySorted key_lt l → i < j → l !! i = Some a → l !! j = Some b → key_lt a b.
Proof.
  intros Hs. revert i j. induction Hs as [|x l Hs IH Hx]; intros i j Hij Ha Hb; [done|].
  destruct i as [|i], j as [|j]; simpl in *; try lia.
  - injection Ha as ->. rewrite Forall_forall in Hx. apply Hx.
    by eapply list_elem_of_lookup_2.
  - apply (IH i j); [lia|done..].
Qed.

Lemma not_key_lt_le x y : ¬ key_lt x y → key_le y x.
Proof. unfold key_lt, key_le. rewrite key_lt_gt. done. Qed.

Lemma py_lt_same_kind x y :
  same_kind x y = true → py_lt x y = Ok (bool_decide (key_lt x y)).
Proof.
  intros Hk. case_bool_decide as Hlt.
  - by apply before_key_lt.
  - apply (not_after_key_le y x). split; [by rewrite same_kind_sym|].
    by apply not_key_lt_le.
Qed.

Lemma key_le_refl x : key_le x x.
Proof. unfold key_le. by rewrite key_compare_refl. Qed.

Lemma key_lt_le x y : key_lt x y → key_le x y.
Proof. unfold key_lt, key_le. congruence. Qed.

Lemma key_le_lt_trans x y z : key_le x y → key_lt y z → key_lt x z.
Proof.
  intros Hxy Hyz. destruct (decide (x = y)) as [->|Hne]; [done|].
  etrans; [|done]. by apply key_le_lt.
Qed.

Lemma key_lt_not_le x y : key_lt x y → ¬ key_le y x.
Proof. unfold key_lt, key_le. rewrite key_lt_gt. intros -> Hn. done. Qed.

(** The loop invariant of [bisect_right]: everything left of [lo] is at
    most [x], everything from [hi] on is greater. *)
Lemma bisect_loop_spec fuel a x lo hi :
  StronglySorted key_lt a →
  (∀ y, y ∈ a → same_kind x y = true) →
  lo ≤ hi ≤ length a → hi - lo ≤ fuel →
  (∀ j y, j < lo → a !! j = Some y → key_le y x) →
  (∀ j y, hi ≤ j → a !! j = Some y → key_lt x y) →
  ∃ i, bisect_loop fuel a x lo hi = Ok i ∧ lo ≤ i ≤ hi ∧
       (∀ j y, j < i → a !! j = Some y → key_le y x) ∧
       (∀ j y, i ≤ j → a !! j = Some y → key_lt x y).
Proof.
  intros Hs Hk. revert lo hi.
  induction fuel as [|fuel IH]; intros lo hi Hb Hf Hlo Hhi; cbn [bisect_loop].
  - exists lo. assert (lo = hi) as -> by lia. eauto with lia.
  - destruct (Nat.ltb_spec lo hi) as [Hlt|Hge]; cycle 1.
    { exists lo. assert (lo = hi) as -> by lia. eauto with lia. }
    pose proof (mid_bounds lo hi Hlt) as Hmid.
    destruct (lookup_lt_is_Some_2 a ((lo + hi) / 2)) as [am Ham]; [lia|].
    rewrite Ham. rewrite py_lt_same_kind by by eapply Hk, list_elem_of_lookup_2.
    cbn [mbind result_bind]. case_bool_decide as Hc.
    + destruct (IH lo ((lo + hi) / 2)) as (i & Hi & Hr & H1 & H2); [lia|lia|done| |].
      { intros j y Hj Hy. destruct (decide (j = (lo + hi) / 2)) as [->|Hne].
        - congruence.
        - etrans; [done|]. apply (sorted_lookup_lt a ((lo + hi) / 2) j); [done|lia|done..]. }
      exists i. split; [done|]. split; [lia|]. done.
    + apply not_key_lt_le in Hc.
      destruct (IH ((lo + hi) / 2 + 1) hi) as (i & Hi & Hr & H1 & H2); [lia|lia| |done|].
      { intros j y Hj Hy. destruct (decide (j = (lo + hi) / 2)) as [->|Hne].
        - congruence.
        - etrans; [|done]. apply key_lt_le.
          apply (sorted_lookup_lt a j ((lo + hi) / 2)); [done|lia|done..]. }
      exists i. split; [done|]. split; [lia|]. done.
Qed.

Lemma bisect_right_spec a x :
  StronglySorted key_lt a →
  (∀ y, y ∈ a → same_kind x y = true) →
  ∃ i, bisect_right a x = Ok i ∧ i ≤ length a ∧
       (∀ j y, j < i → a !! j = Some y → key_le y x) ∧
       (∀ j y, i ≤ j → a !! j = Some y → key_lt x y).
Proof.
  intros Hs Hk.
  destruct (bisect_loop_spec (length a) a x 0 (length a)) as (i & Hi & Hr & H1 & H2);
    [done|done|lia|lia|lia| |].
  { intros j y Hj Hy. apply lookup_lt_Some in Hy. lia. }
  exists i. split; [done|]. split; [lia|done].
Qed.

(** More fuel than [hi - lo] changes nothing: the search stops by itself. *)
Lemma bisect_loop_fuel fuel fuel' a x lo hi :
  hi ≤ length a → hi - lo ≤ fuel → hi - lo ≤ fuel' →
  bisect_loop fuel a x lo hi = bisect_loop fuel' a x lo hi.
Proof.
  revert fuel' lo hi. induction fuel as [|fuel IH]; intros [|fuel'] lo hi Hlen Hf Hf'; cbn [bisect_loop].
  - done.
  - destruct (Nat.ltb_spec lo hi); [lia|done].
  - destruct (Nat.ltb_spec lo hi); [lia|done].
  - destruct (Nat.ltb_spec lo hi) as [Hlt|]; [|done].
    pose proof (mid_bounds lo hi Hlt).
    destruct (a !! ((lo + hi) / 2)); [|done].
    destruct (py_lt x p) as [[]|]; cbn [mbind result_bind]; [apply IH; lia..|done].
Qed.

(* --------------------------------------------------------------------- *)
(** ** [get_last_data_date] *)
(* --------------------------------------------------------------------- *)

Section as_of.
Context `{DatetimeLib}.

Lemma latest_before_unique self q k1 k2 :
  latest_before self q k1 → latest_before self q k2 → k1 = k2.
Proof.
  intros (S1 & B1 & G1) (S2 & B2 & G2).
  apply (anti_symm key_le).
  - by apply not_after_key_le, G2.
  - by apply not_after_key_le, G1.
Qed.

Lemma get_last_data_date_cases self date d :
  coll_inv self → datetime_keyed self →
  create_datetime date None false = Ok d →
  let q := PyDatetime d in
  (stored self q ∧ get_last_data_date self date = Ok q) ∨
  (¬ stored self q ∧ ∃ k, latest_before self q k ∧ get_last_data_date self date = Ok k) ∨
  (¬ stored self q ∧ (∀ k, stored self k → before q k) ∧
   get_last_data_date self date = Raise (ValueError "No Earlier Data Available!" [])).
Proof.
  intros Hinv Hdt Hc q. unfold get_last_data_date. rewrite Hc. simpl. fold q.
  destruct (data self !! q) as [l|] eqn:Hq.
  { left. split; [by exists l|done]. }
  right.
  assert (¬ stored self q) as Hns by (unfold stored; rewrite Hq; by intros [? ?]).
  assert (∀ y, y ∈ data_dates self → same_kind q y = true) as Hk.
  { intros y Hy. apply same_kind_datetime; [done|]. by apply Hdt, Hinv. }
  destruct (bisect_right_spec (data_dates self) q) as (i & Hi & Hlen & H1 & H2);
    [apply py_sorted_key_lt, Hinv|done|].
  rewrite Hi. simpl.
  destruct (Nat.ltb_spec 0 i) as [Hpos|Hz].
  - left. split; [done|].
    destruct (lookup_lt_is_Some_2 (data_dates self) (i - 1)) as [k Hk1]; [lia|].
    rewrite Hk1. exists k. split; [|done].
    assert (stored self k) as Hsk by by eapply Hinv, list_elem_of_lookup_2.
    split; [done|]. split.
    + apply before_key_lt. split; [rewrite same_kind_sym; by eapply Hk, list_elem_of_lookup_2|].
      apply key_le_lt; [apply (H1 (i - 1)); [lia|done]|]. intros ->. done.
    + intros k' Hs' Hb'. apply not_after_key_le.
      assert (same_kind k' k = true) as Hkk.
      { apply same_kind_datetime; by apply Hdt. }
      split; [done|].
      apply Hinv in Hs'. apply list_elem_of_lookup_1 in Hs' as [j Hj].
      destruct (decide (j < i)) as [Hlt|Hge].
      * destruct (decide (j = i - 1)) as [->|Hne]; [simplify_eq; apply key_le_refl|].
        apply key_lt_le.
        apply (sorted_lookup_lt (data_dates self) j (i - 1));
          [apply py_sorted_key_lt, Hinv|lia|done..].
      * exfalso. apply before_key_lt in Hb' as [_ Hb'].
        apply (key_lt_irrefl q). etrans; [|done]. apply (H2 j); [lia|done].
  - right. split; [done|]. split; [|done].
    intros k Hs'. apply before_key_lt.
    assert (k ∈ data_dates self) as Hin by by apply Hinv.
    split; [by apply Hk|].
    apply list_elem_of_lookup_1 in Hin as [j Hj]. apply (H2 j); [lia|done].
Qed.

End as_of.

Lemma re_search_occurs c s : re_search c s = true ↔ occurs c s.
Proof.
  unfold occurs. induction s as [|c' s IH]; simpl.
  - split; [done|]. by intros ?%elem_of_nil.
  - rewrite elem_of_cons. destruct (Ascii.eqb_spec c c') as [->|Hne].
    + split; auto.
    + rewrite IH. split; [auto|]. by intros [?|?].
Qed.

(** On a string of ASCII characters [len] counts the bytes. *)
Lemma py_len_ascii s :
  (∀ c, occurs c s → is_continuation c = false) → py_len s = String.length s.
Proof.
  unfold occurs. induction s as [|c s IH]; simpl; [done|].
  intros Hall. rewrite (Hall c) by by left. f_equal. apply IH.
  intros c' Hc'. apply Hall. by right.
Qed.

(** Eight characters, four of them full-width digits of three bytes
    each. *)
Example py_len_fullwidth :
  py_len "２０２０0704" = 8 ∧ String.length "２０２０0704" = 16.
Proof. split; reflexivity. Qed.

Section claims_dates.
Context `{DatetimeLib}.

(** C5. For a string with no [input_fmt] and [from_tstamp] false,
    [create_datetime] picks the format in this order: a ['-'] in the string
    gives [%Y-%m-%d]; else a ['/'] gives [%m/%d/%Y]; else length 8 gives
    [%Y%m%d]; else length 6 gives [%Y%m]; else it raises [ValueError].  The
    length is that of [len]: the number of characters, not of bytes.  The
    result is the result of that one [strptime] call, so a parse failure
    reaches the caller and a value returned is a value parsed. *)
Theorem create_datetime_infers_format (s : string) :
  let r := create_datetime (PyStr s) None false in
  (occurs "-" s → r = strptime s "%Y-%m-%d") ∧
  (¬ occurs "-" s → occurs "/" s → r = strptime s "%m/%d/%Y") ∧
  (¬ occurs "-" s → ¬ occurs "/" s → py_len s = 8 → r = strptime s "%Y%m%d") ∧
  (¬ occurs "-" s → ¬ occurs "/" s → py_len s = 6 → r = strptime s "%Y%m") ∧
  (¬ occurs "-" s → ¬ occurs "/" s → py_len s ≠ 8 → py_len s ≠ 6 →
     r = Raise (ValueError "Cannot convert date_str - format not recognized!" [])) ∧
  (∀ d, r = Ok d →
     ∃ fmt, fmt ∈ ["%Y-%m-%d"; "%m/%d/%Y"; "%Y%m%d"; "%Y%m"] ∧ strptime s fmt = Ok d).
Proof.
  cbv zeta. unfold create_datetime. cbn [py_str].
  rewrite <- !re_search_occurs.
  destruct (re_search "-" s) eqn:Hd.
  { repeat split; try done. intros d Hr. eexists. split; [|exact Hr]. set_solver. }
  destruct (re_search "/" s) eqn:Hs.
  { repeat split; try done. intros d Hr. eexists. split; [|exact Hr]. set_solver. }
  destruct (Nat.eqb_spec (py_len s) 8) as [H8|H8].
  { repeat split; try done; try lia.
    intros d Hr. eexists. split; [|exact Hr]. set_solver. }
  destruct (Nat.eqb_spec (py_len s) 6) as [H6|H6].
  { repeat split; try done; try lia.
    intros d Hr. eexists. split; [|exact Hr]. set_solver. }
  repeat split; try done.
Qed.

(** C2, as amended. On a collection whose keys are all datetimes,
    [get_last_data_date] first converts the query with [create_datetime] (a failure of the
    conversion is the failure of the call); a query that is a stored key is
    returned; otherwise the greatest stored key below the query is returned;
    the call raises [ValueError] exactly when no stored key is at or below
    the query; a key returned is never above the query. *)
Theorem get_last_data_date_as_of (self : DataFrameCollection) (date : pydate) :
  coll_inv self → datetime_keyed self →
  match create_datetime date None false with
  | Raise e => get_last_data_date self date = Raise e
  | Ok d =>
      let q := PyDatetime d in
      (stored self q → get_last_data_date self date = Ok q) ∧
      (¬ stored self q → (∃ k, stored self k ∧ before k q) →
         ∃ k, latest_before self q k ∧ get_last_data_date self date = Ok k) ∧
      (¬ stored self q → ∀ k, latest_before self q k → get_last_data_date self date = Ok k) ∧
      (get_last_data_date self date = Raise (ValueError "No Earlier Data Available!" [])
         ↔ ∀ k, stored self k → ¬ not_after k q) ∧
      (∀ k, get_last_data_date self date = Ok k → stored self k ∧ not_after k q) ∧
      (∀ e, get_last_data_date self date = Raise e →
         e = ValueError "No Earlier Data Available!" [])
  end.
Proof.
  intros Hinv Hdt.
  destruct (create_datetime date None false) as [d|e] eqn:Hc; cycle 1.
  { unfold get_last_data_date. by rewrite Hc. }
  cbv zeta.
  assert (∀ a b, before a b → not_after a b) as Hbn.
  { intros a b [Hk Hlt]%before_key_lt. apply not_after_key_le. split; [done|].
    by apply key_lt_le. }
  assert (∀ a b, before a b → before b a → False) as Hasym.
  { intros a b [_ H1]%before_key_lt [_ H2]%before_key_lt.
    apply (key_lt_irrefl a). by etrans. }
  assert (∀ a b, before a b → not_after b a → False) as Hcontra.
  { unfold before, not_after. intros a b -> [=]. }
  destruct (get_last_data_date_cases self date d Hinv Hdt Hc)
    as [[Hs Hg]|[(Hns & k & Hl & Hg)|(Hns & Hall & Hg)]]; rewrite Hg.
  - refine (conj _ (conj _ (conj _ (conj (conj _ _) (conj _ _))))); try done.
    + intros Hall. exfalso. apply (Hall _ Hs). apply not_after_key_le.
      split; [apply same_kind_refl|apply key_le_refl].
    + intros k [= <-]. split; [done|]. apply not_after_key_le.
      split; [apply same_kind_refl|apply key_le_refl].
  - refine (conj _ (conj _ (conj _ (conj (conj _ _) (conj _ _))))); try done.
    + intros _ _. by exists k.
    + intros _ k' Hl'. f_equal. by eapply latest_before_unique.
    + intros Hall. exfalso. destruct Hl as (Hs & Hb & _). by apply (Hall k Hs), Hbn.
    + intros k' [= <-]. split; [apply Hl|apply Hbn, Hl].
  - refine (conj _ (conj _ (conj _ (conj (conj _ _) (conj _ _))))); try done.
    + intros _ (k & Hs & Hb). exfalso. eapply Hasym; [done|]. by apply Hall.
    + intros _ k (Hs & Hb & _). exfalso. eapply Hasym; [done|]. by apply Hall.
    + intros _ k Hs Hna. eapply Hcontra; [|done]. by apply Hall.
    + by intros e [= <-].
Qed.

(** C3, as amended. [add_data] applies no conversion: the mapping key is
    the [date] field as it was given.  A call that returns has stored or
    overwritten [data[date]], kept [DATA_ID], and left [data_dates] the
    sorted list of the keys; for a [datetime] the key is the value
    [create_datetime] would give.  The call raises only [TypeError], when
    the keys are of mixed types. *)
Theorem add_data_keeps_date_as_given (self : DataFrameCollection) (d : DatedDataFrame) :
  let data' := <[date d := data_frame d]> (data self) in
  match add_data self d with
  | Ok s' =>
      data s' = data' ∧
      self_DATA_ID s' = self_DATA_ID self ∧
      data_dates s' ≡ₚ (map_to_list data').*1 ∧
      py_sorted (data_dates s') ∧
      (∀ dt, date d = PyDatetime dt → create_datetime (date d) None false = Ok dt)
  | Raise e => e = TypeError ∧ sortable (map_to_list data').*1 = false
  end.
Proof.
  cbv zeta. destruct (add_data self d) as [s'|e] eqn:Ha.
  - pose proof (add_data_inv _ _ _ Ha) as Hinv.
    apply add_data_Ok in Ha as (Hd & Hid & Hs).
    split; [done|]. split; [done|]. split.
    + rewrite <- Hd. by apply coll_inv_keys_perm.
    + split; [apply Hinv|]. by intros dt ->.
  - rewrite add_data_eq in Ha.
    destruct (list_sort _) as [l|e'] eqn:Hs; [done|]. simpl in Ha. injection Ha as <-.
    by apply list_sort_Raise.
Qed.

End claims_dates.

(** C3, counterexample. A snapshot dated by the string ["2021-01-31"] is
    stored under that string, not under the datetime [create_datetime]
    gives for it; the datetime is no key of the mapping, and the as-of
    lookup of the same string then fails with [TypeError]. *)
Lemma add_data_does_not_canonicalize :
  ∃ s', add_data (mk_DataFrameCollection (VStr "px") ∅ [])
          (mk_DatedDataFrame (PyStr "2021-01-31") 1%positive (VStr "px")) = Ok s' ∧
        create_datetime (PyStr "2021-01-31") None false = Ok (midnight 2021 1 31) ∧
        data s' !! PyStr "2021-01-31" = Some 1%positive ∧
        data s' !! PyDatetime (midnight 2021 1 31) = None ∧
        data_dates s' = [PyStr "2021-01-31"] ∧
        get_last_data_date s' (PyStr "2021-01-31") = Raise TypeError.
Proof.
  eexists. split; [apply (DataFrameCollection_init_eq (mk_DatedDataFrame _ _ _))|].
  simpl. repeat split; try done. 
Qed.

(** A list that [sort] gives up on is sorted in no order of its elements. *)
Lemma unsortable_unsorted l l' : sortable l = false → l' ≡ₚ l → ¬ py_sorted l'.
Proof.
  intros Hs Hp Hsorted%py_sorted_pairwise.
  assert (sortable l = true) as Ht; [|by rewrite Ht in Hs].
  apply sortable_pairwise. intros a b Ha Hb. apply Hsorted; by rewrite Hp.
Qed.

(** A call of [add_data] that raises has stored the key and left
    [data_dates] an unsorted list of the keys. *)
Lemma add_data_run_Raise self d s' e :
  add_data_run self d = (s', Raise e) →
  e = TypeError ∧
  data s' = <[date d := data_frame d]> (data self) ∧
  self_DATA_ID s' = self_DATA_ID self ∧
  data_dates s' ≡ₚ (map_to_list (data s')).*1 ∧
  (∀ l, l ≡ₚ data_dates s' → ¬ py_sorted l) ∧
  ¬ coll_inv s'.
Proof.
  unfold add_data_run. destruct (list_sort _) as [l|e'] eqn:Hs; [done|].
  intros [= <- <-]. apply list_sort_Raise in Hs as [-> Hs]. simpl.
  repeat split; try done.
  - intros l Hl. by apply (unsortable_unsorted _ _ Hs).
  - intros [Hsorted _ _]. revert Hsorted. by apply (unsortable_unsorted _ _ Hs).
Qed.

(** C4, as amended. The key list is sorted, free of repetition and holds
    exactly the keys of the mapping after construction and after every
    [add_data] that returns; [add_data] at a stored date returns, replaces
    the snapshot of that date only, and leaves the length of the key list
    unchanged; on a collection keyed by datetimes, [add_data] with a
    datetime returns.  A call of [add_data] that raises, which it does with
    [TypeError] only, has stored the snapshot under its key all the same
    and leaves [data_dates] holding the keys of the mapping in an order
    that is not sorted: the invariant is lost. *)
Theorem data_dates_invariant (self : DataFrameCollection) (d : DatedDataFrame) :
  (∃ s, DataFrameCollection_init d = Ok s ∧ coll_inv s) ∧
  (∀ s', add_data self d = Ok s' → coll_inv s') ∧
  (∀ s', add_data_run self d = (s', Ok ()) ↔ add_data self d = Ok s') ∧
  (∀ s' e, add_data_run self d = (s', Raise e) →
     e = TypeError ∧
     data s' = <[date d := data_frame d]> (data self) ∧
     self_DATA_ID s' = self_DATA_ID self ∧
     data_dates s' ≡ₚ (map_to_list (data s')).*1 ∧
     (∀ l, l ≡ₚ data_dates s' → ¬ py_sorted l) ∧
     ¬ coll_inv s') ∧
  (coll_inv self → stored self (date d) →
     ∃ s', add_data self d = Ok s' ∧ coll_inv s' ∧
           data s' !! date d = Some (data_frame d) ∧
           (∀ k, k ≠ date d → data s' !! k = data self !! k) ∧
           length (data_dates s') = length (data_dates self)) ∧
  (coll_inv self → datetime_keyed self → is_datetime (date d) = true →
     ∃ s', add_data self d = Ok s').
Proof.
  split; [|split; [|split; [|split; [|split]]]].
  - eexists. split; [apply DataFrameCollection_init_eq|].
    eapply add_data_inv. apply DataFrameCollection_init_eq.
  - intros s'. apply add_data_inv.
  - intros s'. apply add_data_run_Ok.
  - intros s' e. apply add_data_run_Raise.
  - intros Hinv Hs. eexists. split; [by apply add_data_present|].
    split; [eapply add_data_inv; by apply add_data_present|]. simpl.
    split; [by rewrite lookup_insert_eq|]. split; [|done].
    intros k Hne. by rewrite lookup_insert_ne.
  - intros Hinv Hdt Hd.
    assert (pairwise_kind (map_to_list (<[date d:=data_frame d]> (data self))).*1) as Hpk.
    { intros a b Ha Hb. apply same_kind_datetime.
      - apply elem_of_keys in Ha. destruct (decide (date d = a)) as [<-|Hne]; [done|].
        rewrite lookup_insert_ne in Ha by done. by apply Hdt.
      - apply elem_of_keys in Hb. destruct (decide (date d = b)) as [<-|Hne]; [done|].
        rewrite lookup_insert_ne in Hb by done. by apply Hdt. }
    destruct (list_sort_pairwise _ Hpk) as [l Hl].
    rewrite add_data_eq, Hl. simpl. eauto.
Qed.

Lemma store1_inv : coll_inv store1.
Proof.
  apply (add_data_inv
           (mk_DataFrameCollection (VStr "px") {[ PyDatetime (midnight 2021 1 31) := 1%positive ]}
              [PyDatetime (midnight 2021 1 31)])
           (mk_DatedDataFrame (PyDatetime (midnight 2021 2 28)) 2%positive (VStr "px"))).
  reflexivity.
Qed.

Lemma store1_datetime_keyed : datetime_keyed store1.
Proof.
  intros k Hk. apply store1_inv in Hk. simpl in Hk.
  apply elem_of_cons in Hk as [->|Hk]; [done|].
  apply list_elem_of_singleton in Hk as ->. done.
Qed.

(** C4, counterexample. A snapshot dated by the string ["2021-03-31"] is
    added to a collection with snapshots of 2021-01-31 and 2021-02-28, on
    which the invariant holds.  The call raises [TypeError]; the snapshot
    is stored under the string, and the key list of the collection is no
    longer sorted. *)
Lemma add_data_raising_breaks_invariant :
  let run := add_data_run store1
               (mk_DatedDataFrame (PyStr "2021-03-31") 3%positive (VStr "px")) in
  coll_inv store1 ∧
  run.2 = Raise TypeError ∧
  data run.1 !! PyStr "2021-03-31" = Some 3%positive ∧
  PyStr "2021-03-31" ∈ data_dates run.1 ∧
  ¬ py_sorted (data_dates run.1) ∧
  ¬ coll_inv run.1.
Proof.
  cbv zeta.
  destruct (add_data_run store1 _) as [s' r] eqn:Hrun.
  assert (r = Raise TypeError) as ->.
  { apply (f_equal snd) in Hrun. simpl in Hrun. subst r. reflexivity. }
  destruct (add_data_run_Raise _ _ _ _ Hrun) as (_ & Hd & _ & Hp & Hs & Hinv).
  cbn [fst snd]. split; [apply store1_inv|]. split; [done|].
  assert (data s' !! PyStr "2021-03-31" = Some 3%positive) as Hk.
  { rewrite Hd. apply lookup_insert_eq. }
  split; [done|]. split.
  { rewrite Hp. apply (proj2 (elem_of_keys _ _)). by exists 3%positive. }
  split; [by apply Hs|done].
Qed.

(** C2, counterexample. The constructor is given a snapshot dated by the
    string ["2021-01-31"]: the collection satisfies the invariant, and its
    one key is that string.  The query ["2021-02-15"] becomes a datetime,
    which is no key, and the search of the key list compares it with the
    string: [TypeError], where the key at or before the query, or
    [ValueError], is claimed. *)
Lemma get_last_data_date_string_keyed :
  ∃ s, DataFrameCollection_init
         (mk_DatedDataFrame (PyStr "2021-01-31") 1%positive (VStr "px")) = Ok s ∧
       coll_inv s ∧
       data_dates s = [PyStr "2021-01-31"] ∧
       create_datetime (PyStr "2021-02-15") None false = Ok (midnight 2021 2 15) ∧
       get_last_data_date s (PyStr "2021-02-15") = Raise TypeError.
Proof.
  eexists. split; [apply (DataFrameCollection_init_eq (mk_DatedDataFrame _ _ _))|].
  split.
  { apply (add_data_inv (mk_DataFrameCollection (VStr "px") ∅ [])
             (mk_DatedDataFrame (PyStr "2021-01-31") 1%positive (VStr "px"))).
    apply (DataFrameCollection_init_eq (mk_DatedDataFrame _ _ _)). }
  simpl. repeat split; done.
Qed.

(** C2 on a collection with snapshots of 2021-01-31 and 2021-02-28: the
    query ["2021-02-15"] resolves to 2021-01-31. *)
Lemma get_last_data_date_as_of_witness :
  coll_inv store1 ∧ datetime_keyed store1 ∧
  get_last_data_date store1 (PyStr "2021-02-15") = Ok (PyDatetime (midnight 2021 1 31)).
Proof.
  split; [apply store1_inv|]. split; [apply store1_datetime_keyed|].
  pose proof (get_last_data_date_as_of store1 (PyStr "2021-02-15")
                store1_inv store1_datetime_keyed) as Hthm.
  change (create_datetime (PyStr "2021-02-15") None false)
    with (Ok (midnight 2021 2 15)) in Hthm.
  destruct Hthm as (_ & _ & Hlatest & _).
  apply Hlatest.
  - intros [l Hl]. vm_compute in Hl. discriminate Hl.
  - split; [exists 1%positive; by vm_compute|]. split; [by vm_compute|].
    intros k Hk Hb. apply store1_inv in Hk. simpl in Hk.
    apply elem_of_cons in Hk as [->|Hk]; [by vm_compute|].
    apply list_elem_of_singleton in Hk as ->. by vm_compute in Hb.
Defined.

(* --------------------------------------------------------------------- *)
(** ** [SecurityLevelData] *)
(* --------------------------------------------------------------------- *)

Lemma init_metadata_unit_None fl unit def_val :
  is_None unit = true → is_None def_val = false →
  init_metadata fl unit def_val =
    Raise (ValueError "Unit Type must be a single STR or dict!" []).
Proof.
  intros Hu Hd. unfold init_metadata. rewrite Hu, Hd. simpl.
  by destruct unit as [[]|].
Qed.

Lemma init_metadata_def_val_None fl unit def_val :
  is_None unit = false → is_None def_val = true →
  init_metadata fl unit def_val =
    Raise (ValueError (if unit_ok unit
                       then "Default Value must be a single INT, FLOAT or dict!"
                       else "Unit Type must be a single STR or dict!") []).
Proof.
  intros Hu Hd. unfold init_metadata, unit_ok. rewrite Hu, Hd. simpl.
  destruct unit as [[]|]; simpl; try done; by destruct def_val as [[]|].
Qed.

Lemma init_metadata_Ok fl unit def_val r :
  init_metadata fl unit def_val = Ok r →
  (is_None unit = true ∧ is_None def_val = true) ∨
  (unit_ok unit = true ∧ def_val_ok def_val = true).
Proof.
  unfold init_metadata, unit_ok, def_val_ok.
  destruct (is_None unit) eqn:Hu, (is_None def_val) eqn:Hd; simpl; auto;
    destruct (type_is_str unit || type_is_dict unit) eqn:Hu'; simpl; try done;
    destruct (type_is_int_or_float def_val || type_is_dict def_val) eqn:Hd';
    simpl; auto; by destruct unit as [[]|].
Qed.

Lemma init_metadata_valid fl unit def_val :
  (is_None unit = true ∧ is_None def_val = true) ∨
  (unit_ok unit = true ∧ def_val_ok def_val = true) →
  ∃ r, init_metadata fl unit def_val = Ok r.
Proof.
  unfold init_metadata, unit_ok, def_val_ok.
  intros [[-> ->]|[Hu Hd]]; simpl; [eauto|].
  rewrite Hu, Hd. simpl.
  destruct (negb (is_None unit) || negb (is_None def_val)); [|eauto].
  destruct unit as [[]|], def_val as [[]|]; simpl in *; try done; eauto.
Qed.

Lemma find_has_label lbl cs :
  lbl ∈ col_label <$> cs →
  ∃ c, List.find (has_label lbl) cs = Some c ∧ c ∈ cs ∧ col_label c = lbl.
Proof.
  induction cs as [|c cs IH]; simpl; [by intros ?%elem_of_nil|].
  intros Hin. unfold has_label at 1. case_bool_decide as Hc.
  - exists c. split; [done|]. split; [left|done].
  - apply elem_of_cons in Hin as [->|Hin]; [done|].
    destruct (IH Hin) as (c' & Hf & Hin' & Hl). exists c'. split; [done|].
    split; [by right|done].
Qed.

Lemma find_has_label_None lbl cs :
  lbl ∉ col_label <$> cs → List.find (has_label lbl) cs = None.
Proof.
  induction cs as [|c cs IH]; simpl; [done|].
  intros Hin. apply not_elem_of_cons in Hin as [Hne Hin].
  unfold has_label at 1. rewrite bool_decide_eq_false_2 by done. by apply IH.
Qed.

(* --------------------------------------------------------------------- *)
(** ** Python's [==] and the dictionaries *)
(* --------------------------------------------------------------------- *)

Lemma py_eq_refl a : py_eq a a = true.
Proof.
  unfold py_eq. destruct (num_of a) as [x|].
  - apply QArith_base.Qeq_bool_iff, QArith_base.Qeq_refl.
  - by apply bool_decide_eq_true.
Qed.

Lemma py_eq_sym a b : py_eq a b = py_eq b a.
Proof.
  unfold py_eq. destruct (num_of a) as [x|], (num_of b) as [y|]; try done.
  - destruct (QArith_base.Qeq_bool x y) eqn:E, (QArith_base.Qeq_bool y x) eqn:E'; try done.
    + apply QArith_base.Qeq_bool_iff, QArith_base.Qeq_sym, QArith_base.Qeq_bool_iff in E.
      congruence.
    + apply QArith_base.Qeq_bool_iff, QArith_base.Qeq_sym, QArith_base.Qeq_bool_iff in E'.
      congruence.
  - apply bool_decide_ext. split; congruence.
Qed.

Lemma py_eq_trans a b c : py_eq a b = true → py_eq b c = true → py_eq a c = true.
Proof.
  unfold py_eq. destruct (num_of a) as [x|], (num_of b) as [y|], (num_of c) as [z|]; try done.
  - rewrite !QArith_base.Qeq_bool_iff. apply QArith_base.Qeq_trans.
  - rewrite !bool_decide_eq_true. congruence.
Qed.

(** Equal values are equal to the same values. *)
Lemma py_eq_eq a b c : py_eq a b = true → py_eq a c = py_eq b c.
Proof.
  intros Hab. destruct (py_eq a c) eqn:Hac, (py_eq b c) eqn:Hbc; try done.
  - rewrite py_eq_sym in Hab. by rewrite (py_eq_trans _ _ _ Hab Hac) in Hbc.
  - by rewrite (py_eq_trans _ _ _ Hab Hbc) in Hac.
Qed.


Lemma py_in_true x l : py_in x l = true ↔ ∃ y, y ∈ l ∧ py_eq x y = true.
Proof.
  unfold py_in. rewrite existsb_exists. split.
  - intros (y & Hy%list_elem_of_In & He). eauto.
  - intros (y & Hy%list_elem_of_In & He). eauto.
Qed.

Lemma py_in_false x l : py_in x l = false ↔ ∀ y, y ∈ l → py_eq x y = false.
Proof.
  destruct (py_in x l) eqn:Hin.
  - apply py_in_true in Hin as (y & Hy & He). split; [done|].
    intros Hall. by rewrite (Hall y Hy) in He.
  - split; [|done]. intros _ y Hy. destruct (py_eq x y) eqn:He; [|done].
    assert (py_in x l = true) as Hp by (apply py_in_true; eauto). congruence.
Qed.

Lemma py_in_elem x l : x ∈ l → py_in x l = true.
Proof. intros Hx. apply py_in_true. exists x. split; [done|apply py_eq_refl]. Qed.

Lemma py_in_app x l1 l2 : py_in x (l1 ++ l2) = py_in x l1 || py_in x l2.
Proof. apply existsb_app. Qed.

Lemma py_in_eq x y l : py_eq x y = true → py_in x l = py_in y l.
Proof.
  intros He. unfold py_in. induction l as [|z l IH]; simpl; [done|].
  by rewrite IH, (py_eq_eq _ _ _ He).
Qed.



Lemma is_unique_app l1 l2 :
  is_unique (l1 ++ l2) = true ↔
  is_unique l1 = true ∧ is_unique l2 = true ∧ ∀ x, x ∈ l1 → py_in x l2 = false.
Proof.
  induction l1 as [|x l1 IH]; simpl.
  - split; [intros Hl; split; [done|split; [done|]]; by intros x ?%elem_of_nil|by intros (_ & ? & _)].
  - rewrite !andb_true_iff, IH, !negb_true_iff, py_in_app, orb_false_iff. split.
    + intros ([Hx1 Hx2] & H1 & H2 & Hd). split; [done|]. split; [done|].
      intros y [->|Hy]%elem_of_cons; [done|by apply Hd].
    + intros ([Hx1 H1] & H2 & Hd). split; [split; [done|apply Hd; left]|].
      split; [done|]. split; [done|]. intros y Hy. apply Hd. by right.
Qed.

(** The keys after an assignment: a key equal to [k] keeps its place,
    a new key comes last. *)
Lemma od_set_keys {V : Type} k (v : V) od :
  (od_set k v od).*1 = if py_in k od.*1 then od.*1 else od.*1 ++ [k].
Proof.
  induction od as [|[k' v'] od IH]; [done|].
  cbn [od_set]. rewrite fmap_cons. cbn [fst py_in existsb].
  destruct (py_eq k k'); cbn [orb]; [done|].
  rewrite fmap_cons, IH. cbn [fst]. fold (py_in k od.*1). by destruct (py_in k od.*1).
Qed.



Lemma od_set_new {V : Type} k (v : V) od :
  py_in k od.*1 = false → od_set k v od = od ++ [(k, v)].
Proof.
  induction od as [|[k' v'] od IH]; [done|].
  rewrite fmap_cons. cbn [fst py_in existsb od_set]. fold (py_in k od.*1).
  destruct (py_eq k k'); cbn [orb]; [done|]. intros Hin. by rewrite IH.
Qed.

Lemma od_get_set {V : Type} k (v : V) od : od_get k (od_set k v od) = Some v.
Proof.
  induction od as [|[k' v'] od IH]; cbn [od_set od_get].
  - by rewrite py_eq_refl.
  - destruct (py_eq k k') eqn:Hk; cbn [od_get]; by rewrite Hk.
Qed.

Lemma od_get_set_ne {V : Type} k k' (v : V) od :
  py_eq k k' = false → od_get k' (od_set k v od) = od_get k' od.
Proof.
  intros Hne. induction od as [|[k0 v0] od IH]; cbn [od_set od_get].
  - by rewrite py_eq_sym, Hne.
  - destruct (py_eq k k0) eqn:Hk; cbn [od_get]; [|by rewrite IH].
    destruct (py_eq k' k0) eqn:Hk'; [|done].
    rewrite (py_eq_sym k' k0) in Hk'. by rewrite (py_eq_trans _ _ _ Hk Hk') in Hne.
Qed.

(** Keys that are equal find the same item. *)
Lemma od_get_eq {V : Type} k k' (od : pydict V) :
  py_eq k k' = true → od_get k od = od_get k' od.
Proof.
  intros He. induction od as [|[k0 v0] od IH]; cbn [od_get]; [done|].
  by rewrite (py_eq_eq _ _ _ He), IH.
Qed.


(** Building a dictionary from the items of a dictionary gives these
    items back, in order. *)
Lemma od_rebuild {V : Type} (acc items : pydict V) :
  is_unique (acc ++ items).*1 = true →
  foldl (λ od kv, od_set kv.1 kv.2 od) acc items = acc ++ items.
Proof.
  revert acc. induction items as [|[k v] items IH]; intros acc Hu; cbn [foldl].
  - by rewrite app_nil_r.
  - cbn [fst snd]. rewrite od_set_new.
    + rewrite IH; rewrite <- app_assoc; done.
    + rewrite fmap_app, fmap_cons in Hu. apply is_unique_app in Hu as (_ & Hk & Hd).
      apply py_in_false. intros y Hy. rewrite py_eq_sym.
      pose proof (Hd y Hy) as Hy'. cbn [py_in existsb fst] in Hy'.
      by apply orb_false_iff in Hy' as [? _].
Qed.

Lemma py_keys_from_unique acc l :
  is_unique (acc ++ l) = true →
  foldl (λ acc x, if py_in x acc then acc else acc ++ [x]) acc l = acc ++ l.
Proof.
  revert acc. induction l as [|x l IH]; intros acc Hu; cbn [foldl].
  - by rewrite app_nil_r.
  - assert (py_in x acc = false) as ->.
    { apply is_unique_app in Hu as (_ & _ & Hd).
      apply py_in_false. intros y Hy. rewrite py_eq_sym.
      pose proof (Hd y Hy) as Hy'. cbn [py_in existsb] in Hy'.
      by apply orb_false_iff in Hy' as [? _]. }
    rewrite IH; rewrite <- app_assoc; done.
Qed.

(** Labels that are unique are their own keys. *)
Lemma py_keys_unique l : is_unique l = true → py_keys l = l.
Proof. intros Hu. unfold py_keys. by rewrite py_keys_from_unique. Qed.

Lemma init_fields_keys_from fl units def_vals acc :
  (foldl (λ fields f,
            od_set f (mk_DataFrameField f (dict_get units f) (dict_get def_vals f)) fields)
         acc fl).*1
  = foldl (λ acc x, if py_in x acc then acc else acc ++ [x]) acc.*1 fl.
Proof.
  revert acc. induction fl as [|f fl IH]; intros acc; cbn [foldl]; [done|].
  by rewrite IH, od_set_keys.
Qed.

(** The field names are the column labels without those equal to an
    earlier one; all of them when the labels are unique. *)
Lemma init_fields_keys fl units def_vals :
  (init_fields fl units def_vals).*1 = py_keys fl.
Proof. unfold init_fields, py_keys. by rewrite init_fields_keys_from. Qed.

Lemma NoDup_fmap_eq {A B : Type} (f : A → B) (l : list A) x y :
  NoDup (f <$> l) → x ∈ l → y ∈ l → f x = f y → x = y.
Proof.
  induction l as [|a l IH]; simpl; [by intros _ ?%elem_of_nil|].
  intros [Hnotin Hnd]%NoDup_cons Hx Hy Hf.
  apply elem_of_cons in Hx as [->|Hx]; apply elem_of_cons in Hy as [->|Hy]; try done.
  - exfalso. apply Hnotin. rewrite Hf. by apply list_elem_of_fmap_2.
  - exfalso. apply Hnotin. rewrite <- Hf. by apply list_elem_of_fmap_2.
  - by apply IH.
Qed.

Lemma set_index_found lbl df c :
  List.find (has_label lbl) (columns df) = Some c →
  set_index lbl df =
    Ok (mk_DataFrame lbl (col_values c) (filter (λ c', col_label c' ≠ lbl) (columns df))).
Proof. unfold set_index. by intros ->. Qed.

Lemma init_index_promotes (h : heap) l df c :
  h !! l = Some df → index_name df ≠ SEC_ID →
  List.find (has_label SEC_ID) (columns df) = Some c →
  init_index h l SEC_ID = Ok (<[l := promoted df c]> h).
Proof.
  intros Hl Hn Hf. unfold init_index.
  rewrite (lookup_total_correct _ _ _ Hl). simpl.
  assert ((if decide (index_name df = VNone) then index_name df else index_name df)
          = index_name df) as -> by by case_decide.
  rewrite decide_True by done. by rewrite (set_index_found _ _ _ Hf).
Qed.

Lemma init_index_labelled (h : heap) l df :
  h !! l = Some df → index_name df = SEC_ID → init_index h l SEC_ID = Ok h.
Proof.
  intros Hl Hn. unfold init_index.
  rewrite (lookup_total_correct _ _ _ Hl). simpl. by rewrite Hn.
Qed.












Section security.
Context `{DatetimeLib}.

(** C9. When exactly one of [unit] and [def_val] is [None] the
    constructor raises [ValueError], whatever the other argument is: with
    [unit] missing the check of [unit] fails; with [def_val] missing the
    check of [def_val] fails (after that of [unit], should [unit] be
    malformed).  A construction that returns had both arguments [None] or
    both well-formed. *)
Theorem SecurityLevelData_init_needs_both (h : heap) (d : DatedDataFrame)
    (unit def_val : pyarg) :
  (is_None unit = true → is_None def_val = false →
     SecurityLevelData_init h d unit def_val =
       Raise (ValueError "Unit Type must be a single STR or dict!" [])) ∧
  (is_None unit = false → is_None def_val = true →
     SecurityLevelData_init h d unit def_val =
       Raise (ValueError (if unit_ok unit
                          then "Default Value must be a single INT, FLOAT or dict!"
                          else "Unit Type must be a single STR or dict!") [])) ∧
  (∀ r, SecurityLevelData_init h d unit def_val = Ok r →
     (is_None unit = true ∧ is_None def_val = true) ∨
     (unit_ok unit = true ∧ def_val_ok def_val = true)).
Proof.
  unfold SecurityLevelData_init. split; [|split].
  - intros Hu Hd. by rewrite init_metadata_unit_None.
  - intros Hu Hd. by rewrite init_metadata_def_val_None.
  - intros r. destruct (init_metadata _ unit def_val) as [m|e] eqn:Hm; [|done].
    intros _. by eapply init_metadata_Ok.
Qed.

(** C10. When the row index of the caller's table is not labelled
    [SEC_ID] and the table has a column of that label, a construction with
    valid arguments returns, and the heap it leaves holds, at the caller's
    reference, the table re-indexed: the [SEC_ID] column has left the
    columns and its cells are the row index, named [SEC_ID]; the other
    columns stand unchanged, in their order; no other object has changed;
    the collection holds that same reference.  The declared fields are the
    column labels the table had before, [SEC_ID] included, without those
    equal under [==] to an earlier one: all of them when no two are
    equal. *)
Theorem SecurityLevelData_init_promotes_in_place (h : heap) (d : DatedDataFrame)
    (unit def_val : pyarg) (df : DataFrame) :
  h !! data_frame d = Some df →
  index_name df ≠ SEC_ID →
  SEC_ID ∈ columns_tolist df →
  NoDup (columns_tolist df) →
  (is_None unit = true ∧ is_None def_val = true) ∨
  (unit_ok unit = true ∧ def_val_ok def_val = true) →
  ∃ s c,
    c ∈ columns df ∧ col_label c = SEC_ID ∧
    SecurityLevelData_init h d unit def_val
      = Ok (s, <[data_frame d := promoted df c]> h) ∧
    index_name (promoted df c) = SEC_ID ∧
    index (promoted df c) = col_values c ∧
    (∀ c', c' ∈ columns (promoted df c) ↔ c' ∈ columns df ∧ c' ≠ c) ∧
    columns (promoted df c) `sublist_of` columns df ∧
    data (base s) = {[ date d := data_frame d ]} ∧
    get_field_names s = py_keys (columns_tolist df) ∧
    (is_unique (columns_tolist df) = true → get_field_names s = columns_tolist df).
Proof.
  intros Hl Hn Hin Hnd Hargs.
  destruct (find_has_label _ _ Hin) as (c & Hf & Hc & Hlbl).
  destruct (init_metadata_valid (columns_tolist df) _ _ Hargs) as [[units def_vals] Hm].
  eexists _, c. split; [done|]. split; [done|].
  split; [|split; [done|split; [done|split; [|split; [|split; [|split]]]]]].
  - unfold SecurityLevelData_init. rewrite (lookup_total_correct _ _ _ Hl), Hm.
    cbn [mbind result_bind INDEX_LABEL].
    rewrite (init_index_promotes _ _ _ _ Hl Hn Hf). cbn [mbind result_bind].
    rewrite DataFrameCollection_init_eq. cbn [mbind result_bind]. reflexivity.
  - intros c'. unfold promoted. cbn [columns].
    rewrite list_elem_of_filter. split.
    + intros [Hne Hc']. split; [done|]. intros ->. done.
    + intros [Hc' Hne]. split; [|done]. intros Hl'. apply Hne.
      apply (NoDup_fmap_eq col_label (columns df)); [done..|congruence].
  - apply sublist_filter.
  - done.
  - unfold get_field_names. cbn [schema FIELDS]. by apply init_fields_keys.
  - intros Hu. unfold get_field_names. cbn [schema FIELDS].
    by rewrite init_fields_keys, py_keys_unique.
Qed.


End security.


(** C1, at the input of the scenario: with [def_val={'PRICE': 0}] and no
    [unit], the constructor raises [ValueError], so no lookup is reached. *)
Theorem scenario_construction_raises :
  SecurityLevelData_init scenario_heap snapshot_jan (ArgVal VNone) price_default
    = Raise (ValueError "Unit Type must be a single STR or dict!" []) ∧
  scenario (ArgVal VNone)
    = Raise (ValueError "Unit Type must be a single STR or dict!" []).
Proof. split; reflexivity. Qed.

(** With [unit] given as an empty [dict] the scenario runs as described:
    [0] for B on 2021-02-28, the January price of A on 2021-02-15. *)
Example scenario_with_unit_dict :
  scenario (ArgDict []) = Ok (Scalar (VInt 0), Scalar (VInt 10)).
Proof. by vm_compute. Qed.


(** C10 on the raw table: its [SEC_ID] column becomes the row index of
    the caller's object. *)
Lemma SecurityLevelData_init_promotes_witness :
  ∃ s c,
    c ∈ columns frame_raw ∧ col_label c = SEC_ID ∧
    SecurityLevelData_init {[ 1%positive := frame_raw ]}
      (mk_DatedDataFrame (PyDatetime (midnight 2021 1 31)) 1%positive (VStr "prices"))
      (ArgVal VNone) (ArgVal VNone)
    = Ok (s, <[1%positive := promoted frame_raw c]> {[ 1%positive := frame_raw ]}).
Proof.
  destruct (SecurityLevelData_init_promotes_in_place
              {[ 1%positive := frame_raw ]}
              (mk_DatedDataFrame (PyDatetime (midnight 2021 1 31)) 1%positive (VStr "prices"))
              (ArgVal VNone) (ArgVal VNone) frame_raw)
    as (s & c & Hc & Hl & Hinit & _).
  - apply lookup_singleton_eq.
  - done.
  - left.
  - repeat constructor; set_solver.
  - by left.
  - exists s, c. exact (conj Hc (conj Hl Hinit)).
Defined.

(* --------------------------------------------------------------------- *)
(** ** [apply_columnwise] *)
(* --------------------------------------------------------------------- *)
















Section columnwise.
Variable f : binary.






End columnwise.



(* --------------------------------------------------------------------- *)
(** ** [dtype_specific_binary] *)
(* --------------------------------------------------------------------- *)

Section dispatch.
Context `{DtypeApi}.
Variables numerics datetimes bools strings categoricals intervals : binary.

(** X1. Whatever the predicates answer: the function called is that of the
    first test, in the order numeric, datetime-like, bool, string,
    categorical, interval, that both sides pass; when they pass none,
    [errors='raise'] raises [ValueError] and any other [errors] gives, for
    two [Series], one warning and a [Series] of NaN on the index of
    [right], row labels and name of the index as they are, with no name of
    its own. *)
Lemma dtype_specific_binary_first_match (left right : pdvalue) (errors : string) :
  let call := dtype_specific_binary left right
                numerics datetimes bools strings categoricals intervals errors in
  (both_numeric left right = true → call = silently (numerics left right)) ∧
  (both_numeric left right = false → both_datetime left right = true →
     call = silently (datetimes left right)) ∧
  (both_numeric left right = false → both_datetime left right = false →
   both_bool left right = true → call = silently (bools left right)) ∧
  (both_numeric left right = false → both_datetime left right = false →
   both_bool left right = false → both_string left right = true →
     call = silently (strings left right)) ∧
  (both_numeric left right = false → both_datetime left right = false →
   both_bool left right = false → both_string left right = false →
   both_categorical left right = true → call = silently (categoricals left right)) ∧
  (both_numeric left right = false → both_datetime left right = false →
   both_bool left right = false → both_string left right = false →
   both_categorical left right = false → both_interval left right = true →
     call = silently (intervals left right)) ∧
  (both_numeric left right = false → both_datetime left right = false →
   both_bool left right = false → both_string left right = false →
   both_categorical left right = false → both_interval left right = false →
     (errors = "raise" → is_value_error call = true) ∧
     (errors ≠ "raise" → ∀ l r, left = PSeries l → right = PSeries r →
        ∃ w, call = Ok (mk_returned (PSeries (nan_series (s_index_name r, s_index r))) [w]))).
Proof.
  cbv zeta. unfold dtype_specific_binary, both_numeric, both_datetime, datetime_like,
    both_bool, both_string, both_categorical, both_interval.
  refine (conj _ (conj _ (conj _ (conj _ (conj _ (conj _ _)))))).
  - by intros ->.
  - by intros -> ->.
  - by intros -> -> ->.
  - by intros -> -> -> ->.
  - by intros -> -> -> -> ->.
  - by intros -> -> -> -> -> ->.
  - intros -> -> -> -> -> ->. cbn [negb]. split.
    + by intros ->.
    + intros Hne l r -> ->.
      rewrite (proj2 (String.eqb_neq errors "raise") Hne). cbn. eauto.
Qed.

End dispatch.

(** C8, at the failing input: for two [bool] columns, as pandas
    classifies dtypes, the function called is [numerics], whatever the six
    functions and [errors] are; [bools] is not called. *)
Theorem dtype_specific_binary_bool_is_numeric :
  (∀ (numerics datetimes bools strings categoricals intervals : binary) (errors : string),
     dtype_specific_binary bool_series bool_series
       numerics datetimes bools strings categoricals intervals errors
     = silently (numerics bool_series bool_series)) ∧
  dtype_specific_binary bool_series bool_series
    (mark "numerics") (mark "datetimes") (mark "bools") (mark "strings")
    (mark "categoricals") (mark "intervals") "ignore"
  = Ok (mk_returned (PArray "numerics" []) []).
Proof. split; [intros; reflexivity|reflexivity]. Qed.

(** A numeric column against a string column: NaN on the row labels of
    [right] and one warning by default, [ValueError] with [errors='raise']. *)
Example dtype_specific_binary_mismatch :
  (∃ w, dtype_specific_binary int_series str_series
          (mark "numerics") (mark "datetimes") (mark "bools") (mark "strings")
          (mark "categoricals") (mark "intervals") "ignore"
        = Ok (mk_returned (PSeries (nan_series (VNone, [VInt 0; VInt 1]))) [w])) ∧
  is_value_error
    (dtype_specific_binary int_series str_series
       (mark "numerics") (mark "datetimes") (mark "bools") (mark "strings")
       (mark "categoricals") (mark "intervals") "raise") = true.
Proof. split; [eexists|]; reflexivity. Qed.

(** The search over two keys gives the same answer with fuel 2 and 5. *)
Lemma bisect_loop_fuel_witness :
  bisect_loop 2 (data_dates store1) (PyDatetime (midnight 2021 2 15)) 0 2 =
  bisect_loop 5 (data_dates store1) (PyDatetime (midnight 2021 2 15)) 0 2.
Proof. apply bisect_loop_fuel; simpl; lia. Defined.

(* --------------------------------------------------------------------- *)
(** ** [utils.py]: [clean_amp], [reverse_amp], [validate_machine_name] *)
(* --------------------------------------------------------------------- *)

Lemma occurs_nil c : ¬ occurs c "".
Proof. unfold occurs. simpl. by intros ?%elem_of_nil. Qed.

Lemma occurs_cons c a s : occurs c (String a s) ↔ c = a ∨ occurs c s.
Proof. unfold occurs. simpl. apply elem_of_cons. Qed.

Lemma append_cons a s t : (String a s ++ t)%string = String a (s ++ t)%string.
Proof. reflexivity. Qed.

Lemma append_nil t : ("" ++ t)%string = t.
Proof. reflexivity. Qed.

Lemma clean_amp_cons c s :
  clean_amp (String c s) =
    if Ascii.eqb "&" c then ("&amp;" ++ clean_amp s)%string else String c (clean_amp s).
Proof.
  unfold clean_amp, re_sub. cbn [re_sub_from startswith].
  destruct (Ascii.eqb "&" c); reflexivity.
Qed.

Lemma reverse_amp_entity t :
  reverse_amp ("&amp;" ++ t)%string = String "&" (reverse_amp t).
Proof. reflexivity. Qed.

Lemma reverse_amp_other c t :
  Ascii.eqb "&" c = false → reverse_amp (String c t) = String c (reverse_amp t).
Proof.
  intros Hc. unfold reverse_amp, re_sub. cbn [re_sub_from startswith]. by rewrite Hc.
Qed.

(** X12. [reverse_amp] undoes [clean_amp] on every string, so [clean_amp]
    loses nothing; and after [clean_amp] every ['&'] starts ["&amp;"]. *)
Theorem reverse_amp_clean_amp :
  (∀ s, reverse_amp (clean_amp s) = s) ∧
  (∀ s t, clean_amp s = clean_amp t → s = t) ∧
  (∀ s, clean_amp (clean_amp s) = clean_amp s → ¬ occurs "&" s).
Proof.
  assert (∀ s, reverse_amp (clean_amp s) = s) as Hrt.
  { induction s as [|c s IH]; [done|]. rewrite clean_amp_cons.
    destruct (Ascii.eqb "&" c) eqn:Hc.
    - apply Ascii.eqb_eq in Hc as <-. by rewrite reverse_amp_entity, IH.
    - by rewrite reverse_amp_other, IH. }
  split; [done|]. split.
  - intros s t Heq. by rewrite <- (Hrt s), <- (Hrt t), Heq.
  - intros s Heq. apply (f_equal reverse_amp) in Heq. rewrite !Hrt in Heq.
    clear Hrt. induction s as [|c s IH]; [apply occurs_nil|].
    rewrite clean_amp_cons in Heq. destruct (Ascii.eqb "&" c) eqn:Hc.
    + apply Ascii.eqb_eq in Hc as <-. exfalso.
      apply (f_equal String.length) in Heq.
      rewrite !append_cons, append_nil in Heq. simpl in Heq.
      assert (∀ u, String.length u ≤ String.length (clean_amp u)) as Hlen.
      { clear. induction u as [|c u IH]; [done|]. rewrite clean_amp_cons.
        destruct (Ascii.eqb "&" c); rewrite ?append_cons, ?append_nil; simpl; lia. }
      specialize (Hlen s). lia.
    + injection Heq as Heq. rewrite occurs_cons. intros [<-|Hin].
      * by rewrite Ascii.eqb_refl in Hc.
      * by apply IH.
Qed.

Lemma search_name_None s :
  search_name s = None ↔ ∀ c, occurs c s → name_char c = false.
Proof.
  induction s as [|a s IH]; cbn [search_name].
  - split; [|done]. intros _ c Hc. by apply occurs_nil in Hc.
  - destruct (name_char a) eqn:Ha.
    + split; [done|]. intros Hall. rewrite (Hall a) in Ha; [done|].
      apply occurs_cons. by left.
    + rewrite IH. split.
      * intros Hall c [->|Hc]%occurs_cons; [done|by apply Hall].
      * intros Hall c Hc. apply Hall. apply occurs_cons. by right.
Qed.

Lemma search_name_Some s base :
  search_name s = Some base → ∃ c rest, base = String c rest ∧ name_char c = true.
Proof.
  induction s as [|a s IH]; cbn [search_name]; [done|].
  destruct (name_char a) eqn:Ha; [|done].
  intros [= <-]. cbn [name_run]. rewrite Ha. eauto.
Qed.

Lemma search_unc_name_char s :
  search_unc s = true → ∃ c, occurs c s ∧ name_char c = true.
Proof.
  induction s as [|a s IH]; [done|]. cbn [search_unc].
  destruct s as [|b [|c s]].
  - done.
  - intros H. destruct (IH H) as (x & Hx & Hn). exists x. split; [|done].
    apply occurs_cons. by right.
  - intros [H|H]%orb_true_iff.
    + apply andb_true_iff in H as [_ Hc]. exists c. split; [|done].
      apply occurs_cons. right. apply occurs_cons. right. apply occurs_cons. by left.
    + destruct (IH H) as (x & Hx & Hn). exists x. split; [|done].
      apply occurs_cons. by right.
Qed.

Lemma search_unc_prefixed c rest :
  name_char c = true →
  search_unc (String backslash (String backslash (String c rest))) = true.
Proof.
  intros Hc. cbn [search_unc]. by rewrite !Ascii.eqb_refl, Hc.
Qed.

(** X13. [validate_machine_name] raises [ValueError] exactly when the name
    has no letter, digit, ['-'] or ['.']; a name it returns holds the
    two backslashes followed by such a character, and validating it again
    returns it unchanged. *)
Theorem validate_machine_name_idempotent (comp_name : string) :
  (validate_machine_name comp_name = Raise (ValueError "Invalid Computer Name!" [])
     ↔ ∀ c, occurs c comp_name → name_char c = false) ∧
  (∀ e, validate_machine_name comp_name = Raise e →
     e = ValueError "Invalid Computer Name!" []) ∧
  (∀ r, validate_machine_name comp_name = Ok r →
     search_unc r = true ∧ validate_machine_name r = Ok r ∧
     (search_unc comp_name = true → r = comp_name) ∧
     (search_unc comp_name = false →
        ∃ base, search_name comp_name = Some base ∧
                r = String backslash (String backslash base))).
Proof.
  unfold validate_machine_name at 1 2 3.
  destruct (search_unc comp_name) eqn:Hu.
  - split; [|split; [done|]].
    + split; [done|]. intros Hall.
      destruct (search_unc_name_char _ Hu) as (c & Hc & Hn).
      by rewrite (Hall c Hc) in Hn.
    + intros r [= <-]. split; [done|]. split; [|split; [done|done]].
      unfold validate_machine_name. by rewrite Hu.
  - destruct (search_name comp_name) as [base|] eqn:Hs.
    + split; [|split; [done|]].
      * split; [done|]. intros Hall%search_name_None. congruence.
      * intros r [= <-]. destruct (search_name_Some _ _ Hs) as (c & rest & -> & Hc).
        pose proof (search_unc_prefixed c rest Hc) as Hp.
        split; [done|]. split; [|split; [done|by eauto]].
        unfold validate_machine_name. by rewrite Hp.
    + split; [|split; [by intros e [= <-]|done]].
      split; [intros _; by apply search_name_None|done].
Qed.

(* --------------------------------------------------------------------- *)
(** ** [utils.py]: [DefaultOrderedDict] *)
(* --------------------------------------------------------------------- *)



(** X15. A [DefaultOrderedDict] can only be built with [None] or a callable
    as factory; a copy of a dictionary (no two keys equal) has the same
    factory and the same items in the same order. *)
Theorem DefaultOrderedDict_copy_spec (self : DefaultOrderedDict) :
  (∀ items, DefaultOrderedDict_init NotCallable items = Raise TypeError) ∧
  (default_factory self ≠ NotCallable → is_unique (dod_items self).*1 = true →
     DefaultOrderedDict_copy self = Ok self).
Proof.
  split; [done|]. intros Hf Hnd. unfold DefaultOrderedDict_copy, DefaultOrderedDict_init.
  rewrite (od_rebuild [] (dod_items self)) by done. destruct self as [[| |] items]; done.
Qed.

(* --------------------------------------------------------------------- *)
(** ** [utils.py]: [load_properties] *)
(* --------------------------------------------------------------------- *)

Lemma startswith_one c s :
  startswith (String c EmptyString) s =
    match s with
    | String a _ => Ascii.eqb c a
    | EmptyString => false
    end.
Proof. destruct s as [|a s]; [done|]. cbn [startswith]. by rewrite andb_true_r. Qed.

Lemma str_split_no_sep sep s : ¬ occurs sep s → str_split sep s = [s].
Proof.
  induction s as [|c s IH]; [done|]. rewrite occurs_cons. intros Hn.
  cbn [str_split]. destruct (Ascii.eqb_spec c sep) as [->|Hne]; [by destruct Hn; left|].
  rewrite IH; [done|]. intros ?. apply Hn. by right.
Qed.

Lemma str_split_at_sep sep k rest :
  ¬ occurs sep k →
  str_split sep (k ++ String sep rest)%string = k :: str_split sep rest.
Proof.
  induction k as [|c k IH]; intros Hn.
  - rewrite append_nil. cbn [str_split]. by rewrite Ascii.eqb_refl.
  - rewrite append_cons. cbn [str_split]. rewrite occurs_cons in Hn.
    destruct (Ascii.eqb_spec c sep) as [->|Hne]; [by destruct Hn; left|].
    rewrite IH; [done|]. intros ?. apply Hn. by right.
Qed.

Lemma str_split_head_sep sep s : occurs sep s → 2 ≤ length (str_split sep s).
Proof.
  induction s as [|c s IH]; [by intros ?%occurs_nil|]. rewrite occurs_cons.
  intros Hin. cbn [str_split]. destruct (Ascii.eqb_spec c sep) as [->|Hne].
  - destruct s; cbn [str_split length]; [lia|]. destruct (Ascii.eqb _ _); [simpl; lia|].
    destruct (str_split sep s); simpl; lia.
  - destruct Hin as [?|Hin]; [done|]. specialize (IH Hin).
    destruct (str_split sep s) as [|p ps]; simpl in *; lia.
Qed.

Lemma rstrip_newline_line v :
  ¬ occurs newline v → rstrip_newline (v ++ String newline EmptyString)%string = v.
Proof.
  induction v as [|c v IH]; intros Hn; [done|].
  rewrite append_cons. cbn [rstrip_newline]. rewrite occurs_cons in Hn.
  assert (¬ occurs newline v) as Hv by (intros ?; apply Hn; by right).
  specialize (IH Hv). rewrite IH.
  destruct v as [|c' v]; [|done].
  destruct (Ascii.eqb_spec c newline) as [->|Hne]; [by destruct Hn; left|done].
Qed.

Lemma skipped_assignment k rest :
  startswith "#" k = false → ¬ occurs newline k →
  skipped (k ++ String "=" rest)%string = false.
Proof.
  intros Hh Hn. unfold skipped. rewrite !startswith_one.
  destruct k as [|c k]; [done|]. rewrite append_cons.
  rewrite startswith_one in Hh. rewrite Hh. cbn [orb].
  apply Ascii.eqb_neq. intros <-. apply Hn, occurs_cons. by left.
Qed.

Lemma load_line_skipped properties line :
  skipped line = true → load_line properties line = Ok properties.
Proof. unfold load_line, skipped. by intros ->. Qed.

Lemma load_line_assignment properties k v :
  startswith "#" k = false → ¬ occurs newline k → ¬ occurs "=" k →
  load_line properties (k ++ String "=" v)%string =
    Ok (<[k := rstrip_newline (default EmptyString (head (str_split "=" v)))]> properties).
Proof.
  intros Hh Hn He. unfold load_line.
  pose proof (skipped_assignment k v Hh Hn) as Hs. unfold skipped in Hs. rewrite Hs.
  cbv zeta. rewrite str_split_at_sep by done. cbn [lookup list_lookup].
  destruct v as [|c v]; [done|]. cbn [str_split].
  destruct (Ascii.eqb c "="); [done|]. by destruct (str_split "=" v).
Qed.

Lemma load_line_no_sep properties line :
  skipped line = false → ¬ occurs "=" line → load_line properties line = Raise IndexError.
Proof.
  unfold load_line, skipped. intros -> Hn. cbv zeta. by rewrite str_split_no_sep.
Qed.

Lemma load_line_sep properties line :
  occurs "=" line → ∃ properties', load_line properties line = Ok properties'.
Proof.
  intros Hin. unfold load_line. destruct (_ || _); [eauto|]. cbv zeta.
  pose proof (str_split_head_sep _ _ Hin) as Hlen.
  destruct (str_split "=" line) as [|k [|v ps]]; simpl in Hlen; try lia.
  cbn [lookup list_lookup]. eauto.
Qed.

Lemma load_properties_snoc lines line :
  load_properties (lines ++ [line]) =
    (properties ← load_properties lines; load_line properties line).
Proof. unfold load_properties. by rewrite foldl_app. Qed.

Lemma load_properties_from_Raise e lines :
  foldl (λ acc line, properties ← acc; load_line properties line) (Raise e) lines = Raise e.
Proof. induction lines as [|l lines IH]; [done|]. cbn [foldl]. apply IH. Qed.

Lemma load_properties_app pre post :
  load_properties (pre ++ post) =
    foldl (λ acc line, properties ← acc; load_line properties line)
      (load_properties pre) post.
Proof. unfold load_properties. by rewrite foldl_app. Qed.

(** X16. [load_properties] returns when every line is a comment, starts with
    a newline, or holds an ['=']; the first other line, a line of blanks
    for one, makes it raise [IndexError]. *)
Theorem load_properties_needs_separator (lines : list string) :
  ((∀ line, line ∈ lines → skipped line = true ∨ occurs "=" line) →
     ∃ properties, load_properties lines = Ok properties) ∧
  (∀ pre line post, lines = pre ++ line :: post →
     (∀ l, l ∈ pre → skipped l = true ∨ occurs "=" l) →
     skipped line = false → ¬ occurs "=" line →
     load_properties lines = Raise IndexError) ∧
  (∀ e, load_properties lines = Raise e → e = IndexError).
Proof.
  assert (∀ ls, (∀ line, line ∈ ls → skipped line = true ∨ occurs "=" line) →
            ∃ properties, load_properties ls = Ok properties) as Hok.
  { induction ls as [|line ls IH] using rev_ind; intros Hall; [by eexists|].
    rewrite load_properties_snoc.
    destruct IH as [p ->]; [intros l Hl; apply Hall, elem_of_app; by left|].
    cbn [mbind result_bind].
    destruct (Hall line) as [Hs|He]; [apply elem_of_app; right; left| |].
    - rewrite load_line_skipped by done. eauto.
    - by apply load_line_sep. }
  split; [apply Hok|]. split.
  - intros pre line post -> Hpre Hs Hn.
    rewrite (load_properties_app pre (line :: post)).
    destruct (Hok pre Hpre) as [p ->]. cbn [foldl mbind result_bind].
    rewrite load_line_no_sep by done. apply load_properties_from_Raise.
  - intros e. induction lines as [|line lines IH] using rev_ind; [done|].
    rewrite load_properties_snoc.
    destruct (load_properties lines) as [p|e']; cbn [mbind result_bind].
    + unfold load_line. destruct (_ || _); [done|]. cbv zeta.
      destruct (str_split "=" line) as [|k [|v ps]]; cbn [lookup list_lookup]; try done;
        by intros [= <-].
    + intros [= <-]. by apply IH.
Qed.

(** X17. A line [k=v] followed by a newline gives the key [k] the value [v]
    (no ['='] or newline in either, [k] not starting with ['#']), whatever
    came before, provided no later line assigns [k] again. *)
Theorem load_properties_assignment (pre post : list string) (k v : string)
    (properties0 : gmap string string) :
  load_properties pre = Ok properties0 →
  startswith "#" k = false → ¬ occurs newline k → ¬ occurs "=" k →
  ¬ occurs "=" v → ¬ occurs newline v →
  (∀ line, line ∈ post →
     skipped line = true ∨
     ∃ k' rest, line = (k' ++ String "=" rest)%string ∧ k' ≠ k ∧
                startswith "#" k' = false ∧ ¬ occurs newline k' ∧ ¬ occurs "=" k') →
  ∃ properties,
    load_properties (pre ++ (k ++ String "=" (v ++ String newline EmptyString))%string :: post)
      = Ok properties ∧
    properties !! k = Some v.
Proof.
  intros Hpre Hh Hnk Hek Hev Hnv Hpost.
  rewrite load_properties_app, Hpre. cbn [foldl mbind result_bind].
  rewrite load_line_assignment by done.
  rewrite str_split_no_sep.
  2:{ unfold occurs. rewrite <- (String.string_of_list_ascii_of_string v) in Hev.
      intros Hin. apply Hev. unfold occurs.
      rewrite String.string_of_list_ascii_of_string.
      revert Hin. clear. induction v as [|c v IH]; simpl.
      - rewrite list_elem_of_singleton. by intros [= <-].
      - rewrite !elem_of_cons. intros [?|?]; [by left|right; by apply IH]. }
  cbn [head default from_option id]. rewrite rstrip_newline_line by done.
  assert (∀ p, p !! k = Some v →
            ∃ properties,
              foldl (λ acc line, properties ← acc; load_line properties line) (Ok p) post
                = Ok properties ∧ properties !! k = Some v) as Hfold.
  { clear Hpre. induction post as [|line post IH]; intros p Hp; [by eexists|].
    cbn [foldl mbind result_bind].
    destruct (Hpost line ltac:(left)) as [Hs|(k' & rest & -> & Hne & Hh' & Hn' & He')].
    - rewrite load_line_skipped by done. apply IH; [|done].
      intros l Hl. apply Hpost. by right.
    - rewrite load_line_assignment by done. apply IH.
      + intros l Hl. apply Hpost. by right.
      + by rewrite lookup_insert_ne. }
  apply Hfold. by rewrite lookup_insert_eq.
Qed.

(** A file with a comment, two keys, and the first key assigned twice. *)
Lemma load_properties_assignment_witness :
  ∃ properties,
    load_properties
      ["# settings" ++ String newline EmptyString;
       "host=alpha" ++ String newline EmptyString;
       "host=beta" ++ String newline EmptyString;
       "port=80" ++ String newline EmptyString]%string = Ok properties ∧
    properties !! "host" = Some "beta".
Proof.
  apply (load_properties_assignment
           ["# settings" ++ String newline EmptyString;
            "host=alpha" ++ String newline EmptyString]%string
           ["port=80" ++ String newline EmptyString]%string
           "host" "beta" {[ "host" := "alpha" ]}).
  - reflexivity.
  - reflexivity.
  - unfold occurs. simpl. set_solver.
  - unfold occurs. simpl. set_solver.
  - unfold occurs. simpl. set_solver.
  - unfold occurs. simpl. set_solver.
  - intros line ->%list_elem_of_singleton. right.
    exists "port", ("80" ++ String newline EmptyString)%string.
    split; [reflexivity|]. split; [done|]. split; [reflexivity|].
    split; unfold occurs; simpl; set_solver.
Defined.

(* --------------------------------------------------------------------- *)
(** ** The other methods of the collection *)
(* --------------------------------------------------------------------- *)

Lemma list_index_None x l : list_index x l = None ↔ x ∉ l.
Proof.
  induction l as [|y l IH]; simpl.
  - split; [intros _ Hin; by apply elem_of_nil in Hin|done].
  - destruct (decide (y = x)) as [->|Hne].
    + split; [done|]. intros Hn. exfalso. apply Hn. by left.
    + rewrite not_elem_of_cons. destruct (list_index x l); simpl.
      * split; [done|]. intros [_ Hn]. by apply IH in Hn.
      * split; [|done]. intros _. split; [done|]. by apply IH.
Qed.

Lemma list_index_Some x l i : list_index x l = Some i → l !! i = Some x.
Proof.
  revert i. induction l as [|y l IH]; intros i; simpl; [done|].
  destruct (decide (y = x)) as [->|Hne].
  - by intros [= <-].
  - destruct (list_index x l) as [j|]; simpl; [|done].
    intros [= <-]. by apply IH.
Qed.

(** In a sorted key list a key below the one at position [i] sits at a
    position below [i]. *)
Lemma py_sorted_position l i j a b :
  py_sorted l → l !! i = Some a → l !! j = Some b → before b a → j < i.
Proof.
  intros Hs Ha Hb Hlt. apply before_key_lt in Hlt as [_ Hlt].
  destruct (decide (j < i)) as [|Hge]; [done|]. exfalso.
  destruct (decide (j = i)) as [->|Hne].
  - simplify_eq. by apply key_lt_irrefl in Hlt.
  - apply (key_lt_irrefl a). etrans; [|done].
    apply (sorted_lookup_lt l i j); [by apply py_sorted_key_lt|lia|done..].
Qed.

Lemma py_sorted_lookup_before l i j a b :
  py_sorted l → i < j → l !! i = Some a → l !! j = Some b → before a b.
Proof.
  intros Hs Hij Ha Hb. apply before_key_lt. split.
  - apply (py_sorted_pairwise l Hs); by eapply list_elem_of_lookup_2.
  - apply (sorted_lookup_lt l i j); [by apply py_sorted_key_lt|done..].
Qed.

(** X2. [get_previous_date] on a collection that satisfies the invariant:
    a date that is no key raises the [ValueError] of [list.index]; the
    earliest key raises [ValueError('No Earlier Data Available')]; for any
    other key the call returns the greatest key strictly below it. *)
Theorem get_previous_date_strict_predecessor (self : DataFrameCollection) (date : pydate) :
  coll_inv self →
  (¬ stored self date →
     get_previous_date self date = Raise (ValueError "%r is not in list" [])) ∧
  (stored self date → (∀ k, stored self k → ¬ before k date) →
     get_previous_date self date = Raise (ValueError "No Earlier Data Available" [])) ∧
  (stored self date → (∃ k, stored self k ∧ before k date) →
     ∃ k, get_previous_date self date = Ok k ∧ latest_before self date k).
Proof.
  intros Hinv. unfold get_previous_date.
  refine (conj _ (conj _ _)).
  - intros Hns. assert (list_index date (data_dates self) = None) as ->; [|done].
    apply list_index_None. intros Hin. by apply Hns, Hinv.
  - intros Hs Hmin. apply Hinv in Hs.
    destruct (list_index date (data_dates self)) as [i|] eqn:Hi;
      [|by apply list_index_None in Hi].
    apply list_index_Some in Hi.
    destruct (Nat.eqb_spec i 0) as [->|Hpos]; [done|]. exfalso.
    destruct (lookup_lt_is_Some_2 (data_dates self) (i - 1)) as [p Hp].
    { apply lookup_lt_Some in Hi. lia. }
    apply (Hmin p).
    + by eapply Hinv, list_elem_of_lookup_2.
    + apply (py_sorted_lookup_before (data_dates self) (i - 1) i); [apply Hinv|lia|done..].
  - intros Hs (k & Hk & Hb). apply Hinv in Hs.
    destruct (list_index date (data_dates self)) as [i|] eqn:Hi;
      [|by apply list_index_None in Hi].
    apply list_index_Some in Hi.
    assert (∀ k' j, data_dates self !! j = Some k' → before k' date → j < i) as Hpos.
    { intros k' j Hj Hb'.
      by apply (py_sorted_position (data_dates self) i j date k'); [apply Hinv|..]. }
    apply Hinv, list_elem_of_lookup_1 in Hk as [j Hj].
    pose proof (Hpos k j Hj Hb) as Hji.
    destruct (Nat.eqb_spec i 0) as [->|Hne]; [lia|].
    destruct (lookup_lt_is_Some_2 (data_dates self) (i - 1)) as [p Hp].
    { apply lookup_lt_Some in Hi. lia. }
    rewrite Hp. exists p. split; [done|].
    refine (conj _ (conj _ _)).
    + by eapply Hinv, list_elem_of_lookup_2.
    + apply (py_sorted_lookup_before (data_dates self) (i - 1) i); [apply Hinv|lia|done..].
    + intros k' Hk' Hb'. apply Hinv, list_elem_of_lookup_1 in Hk' as [j' Hj'].
      pose proof (Hpos k' j' Hj' Hb') as Hlt.
      apply not_after_key_le. split.
      * apply (py_sorted_pairwise (data_dates self)); [apply Hinv|by eapply list_elem_of_lookup_2..].
      * destruct (decide (j' = i - 1)) as [->|Hne'].
        -- simplify_eq. apply key_le_refl.
        -- apply key_lt_le.
           apply (sorted_lookup_lt (data_dates self) j' (i - 1));
             [apply py_sorted_key_lt, Hinv|lia|done..].
Qed.

(** On the collection with snapshots of 2021-01-31 and 2021-02-28, the
    date before 2021-02-28 is 2021-01-31. *)
Lemma get_previous_date_strict_predecessor_witness :
  coll_inv store1 ∧
  ∃ k, get_previous_date store1 (PyDatetime (midnight 2021 2 28)) = Ok k ∧
       latest_before store1 (PyDatetime (midnight 2021 2 28)) k.
Proof.
  split; [apply store1_inv|].
  apply (get_previous_date_strict_predecessor store1 (PyDatetime (midnight 2021 2 28))
           store1_inv).
  - exists 2%positive. reflexivity.
  - exists (PyDatetime (midnight 2021 1 31)). split; [|reflexivity].
    exists 1%positive. reflexivity.
Defined.

Lemma before_asym a b : before a b → before b a → False.
Proof.
  intros [_ Hab]%before_key_lt [_ Hba]%before_key_lt.
  apply (key_lt_irrefl a). by etrans.
Qed.

Lemma before_irrefl a : ¬ before a a.
Proof. intros Hb. by apply (before_asym a a). Qed.

Lemma not_after_refl a : not_after a a.
Proof. apply not_after_key_le. split; [apply same_kind_refl|apply key_le_refl]. Qed.

Lemma not_after_trans a b c : not_after a b → not_after b c → not_after a c.
Proof.
  intros [Hk Hl]%not_after_key_le [Hk' Hl']%not_after_key_le.
  apply not_after_key_le. split; [by eapply same_kind_trans|by etrans].
Qed.

Lemma not_after_before a b : not_after a b → a ≠ b → before a b.
Proof.
  intros [Hk Hl]%not_after_key_le Hne. apply before_key_lt.
  split; [done|]. by apply key_le_lt.
Qed.

(** [add_data] with a [datetime] on a collection keyed by [datetime]s
    returns, and the collection stays one keyed by [datetime]s. *)
Lemma add_data_datetime self d :
  datetime_keyed self → is_datetime (date d) = true →
  ∃ s', add_data self d = Ok s' ∧ coll_inv s' ∧ datetime_keyed s' ∧
        data s' = <[date d := data_frame d]> (data self) ∧
        self_DATA_ID s' = self_DATA_ID self.
Proof.
  intros Hdt Hd.
  assert (∀ a, is_Some (<[date d:=data_frame d]> (data self) !! a) → is_datetime a = true)
    as Hkeys.
  { intros a Ha. destruct (decide (date d = a)) as [<-|Hne]; [done|].
    rewrite lookup_insert_ne in Ha by done. by apply Hdt. }
  assert (pairwise_kind (map_to_list (<[date d:=data_frame d]> (data self))).*1) as Hpk.
  { intros a b Ha%elem_of_keys Hb%elem_of_keys. apply same_kind_datetime; by apply Hkeys. }
  destruct (list_sort_pairwise _ Hpk) as [l Hl].
  eexists. split; [rewrite add_data_eq, Hl; reflexivity|].
  split; [eapply add_data_inv; rewrite add_data_eq, Hl; reflexivity|].
  split; [|done]. intros k Hk. by apply Hkeys.
Qed.

Section collection.
Context `{DatetimeLib}.

Lemma get_last_data_date_Ok self date d k :
  coll_inv self → datetime_keyed self →
  create_datetime date None false = Ok d →
  get_last_data_date self date = Ok k →
  stored self k ∧ not_after k (PyDatetime d).
Proof.
  intros Hinv Hdt Hc Hk.
  pose proof (get_last_data_date_cases self date d Hinv Hdt Hc) as Hcases.
  cbv zeta in Hcases.
  destruct Hcases as [[Hs Hr]|[(Hns & k' & Hl & Hr)|(Hns & Hall & Hr)]];
    rewrite Hr in Hk; simplify_eq.
  - split; [done|apply not_after_refl].
  - destruct Hl as (Hs & [Hk Hlt]%before_key_lt & _). split; [done|].
    apply not_after_key_le. split; [done|by apply key_lt_le].
Qed.


(** X3. A snapshot added under a [datetime] is what the collection returns
    for any query that [create_datetime] turns into that [datetime]: the
    as-of date is the snapshot's date, [get_latest_data] gives the table
    just added, and [get_dated_data_frame] labels it with the collection's
    [DATA_ID]. *)
Theorem add_data_then_get_latest_data (now : datetime) (self : DataFrameCollection)
    (d : DatedDataFrame) (query : pydate) (dt : datetime) :
  datetime_keyed self →
  date d = PyDatetime dt →
  create_datetime query None false = Ok dt →
  ∃ s', add_data self d = Ok s' ∧
        get_last_data_date s' query = Ok (date d) ∧
        get_latest_data now s' (Some query) = Ok (data_frame d) ∧
        get_dated_data_frame now s' (Some query)
          = Ok (mk_DatedDataFrame (date d) (data_frame d) (self_DATA_ID self)).
Proof.
  intros Hdt Hd Hc.
  destruct (add_data_datetime self d Hdt) as (s' & Hadd & _ & _ & Hdata & Hid).
  { by rewrite Hd. }
  exists s'. split; [done|].
  assert (data s' !! PyDatetime dt = Some (data_frame d)) as Hl.
  { by rewrite Hdata, Hd, lookup_insert_eq. }
  assert (get_last_data_date s' query = Ok (date d)) as Hr.
  { unfold get_last_data_date. rewrite Hc. simpl. by rewrite Hl, Hd. }
  split; [done|].
  unfold get_latest_data, get_dated_data_frame. rewrite Hr. simpl.
  rewrite Hd, Hl, Hid. done.
Qed.

(** X4. No look-ahead: adding a snapshot dated after the query changes
    nothing of what the query resolves to, neither the as-of date nor the
    table nor the error. *)
Theorem add_data_later_keeps_earlier (now : datetime) (self : DataFrameCollection)
    (d : DatedDataFrame) (query : pydate) (q : datetime) :
  coll_inv self → datetime_keyed self →
  is_datetime (date d) = true →
  create_datetime query None false = Ok q →
  before (PyDatetime q) (date d) →
  ∃ s', add_data self d = Ok s' ∧
        get_last_data_date s' query = get_last_data_date self query ∧
        get_latest_data now s' (Some query) = get_latest_data now self (Some query) ∧
        get_dated_data_frame now s' (Some query)
          = get_dated_data_frame now self (Some query).
Proof.
  intros Hinv Hdt Hd Hc Hb.
  destruct (add_data_datetime self d Hdt Hd) as (s' & Hadd & Hinv' & Hdt' & Hdata & Hid).
  exists s'. split; [done|].
  assert (∀ k, stored s' k ↔ k = date d ∨ stored self k) as Hst.
  { intros k. unfold stored. rewrite Hdata.
    destruct (decide (date d = k)) as [<-|Hn].
    - rewrite lookup_insert_eq. split; [by left|eauto].
    - rewrite lookup_insert_ne by done. split; [by right|].
      intros [?|?]; [congruence|done]. }
  assert (¬ stored self (PyDatetime q) → ¬ stored s' (PyDatetime q)) as Hnst.
  { intros Hns [Heq|Hs]%Hst; [|done]. rewrite <- Heq in Hb. by apply before_irrefl in Hb. }
  assert (get_last_data_date s' query = get_last_data_date self query) as Hres.
  { pose proof (get_last_data_date_cases self query q Hinv Hdt Hc) as Hc1.
    pose proof (get_last_data_date_cases s' query q Hinv' Hdt' Hc) as Hc2.
    cbv zeta in Hc1, Hc2.
    destruct Hc1 as [[Hs Hr]|[(Hns & k & Hl & Hr)|(Hns & Hall & Hr)]]; rewrite Hr.
    - destruct Hc2 as [[Hs' Hr']|[(Hns' & _)|(Hns' & _)]]; [done|..];
        exfalso; apply Hns', Hst; by right.
    - apply Hnst in Hns.
      assert (latest_before s' (PyDatetime q) k) as Hl'.
      { destruct Hl as (Hsk & Hbk & Hg). split; [apply Hst; by right|]. split; [done|].
        intros k' [->|Hk']%Hst Hb'; [|by apply Hg].
        exfalso. by apply (before_asym _ _ Hb). }
      destruct Hc2 as [[Hs' Hr']|[(Hns' & k2 & Hl2 & Hr2)|(Hns' & Hall' & Hr')]].
      + done.
      + rewrite Hr2. f_equal. by eapply latest_before_unique.
      + exfalso. destruct Hl' as (Hsk & Hbk & _).
        apply (before_asym _ _ Hbk). by apply Hall'.
    - apply Hnst in Hns.
      destruct Hc2 as [[Hs' Hr']|[(Hns' & k2 & Hl2 & Hr2)|(Hns' & Hall' & Hr')]].
      + done.
      + exfalso. destruct Hl2 as ([->|Hsk]%Hst & Hbk & _).
        * by apply (before_asym _ _ Hb).
        * apply (before_asym _ _ Hbk). by apply Hall.
      + done. }
  split; [done|].
  assert (∀ k, get_last_data_date self query = Ok k → data s' !! k = data self !! k) as Hsame.
  { intros k Hk. rewrite Hdata. apply lookup_insert_ne. intros <-.
    destruct (get_last_data_date_Ok _ _ _ _ Hinv Hdt Hc Hk) as [_ Hna].
    unfold before, not_after in *. congruence. }
  unfold get_latest_data, get_dated_data_frame. rewrite Hres.
  destruct (get_last_data_date self query) as [k|e]; [|done].
  simpl. rewrite (Hsame k eq_refl), Hid. done.
Qed.

(** X5. The as-of date is monotone in the query: when a query resolves, every
    later query resolves too, to a date that is not earlier. *)
Theorem get_last_data_date_monotone (self : DataFrameCollection)
    (q1 q2 : pydate) (d1 d2 : datetime) (k1 : pydate) :
  coll_inv self → datetime_keyed self →
  create_datetime q1 None false = Ok d1 →
  create_datetime q2 None false = Ok d2 →
  not_after (PyDatetime d1) (PyDatetime d2) →
  get_last_data_date self q1 = Ok k1 →
  ∃ k2, get_last_data_date self q2 = Ok k2 ∧ not_after k1 k2.
Proof.
  intros Hinv Hdt Hc1 Hc2 Hle Hk1.
  destruct (get_last_data_date_Ok _ _ _ _ Hinv Hdt Hc1 Hk1) as [Hs1 Hna1].
  pose proof (not_after_trans _ _ _ Hna1 Hle) as Hna2.
  pose proof (get_last_data_date_cases self q2 d2 Hinv Hdt Hc2) as Hcases.
  cbv zeta in Hcases.
  destruct Hcases as [[Hs Hr]|[(Hns & k' & Hl & Hr)|(Hns & Hall & Hr)]].
  - by exists (PyDatetime d2).
  - exists k'. split; [done|]. destruct Hl as (_ & _ & Hg). apply Hg; [done|].
    apply not_after_before; [done|]. by intros ->.
  - exfalso. specialize (Hall k1 Hs1). unfold before, not_after in *. congruence.
Qed.

End collection.

(** A snapshot of 2021-03-31 added to the collection of 2021-01-31 and
    2021-02-28 is found under ["2021-03-31"]. *)
Lemma add_data_then_get_latest_data_witness :
  ∃ s', add_data store1 (mk_DatedDataFrame (PyDatetime (midnight 2021 3 31)) 3%positive (VStr "px"))
          = Ok s' ∧
        get_last_data_date s' (PyStr "2021-03-31") = Ok (PyDatetime (midnight 2021 3 31)) ∧
        get_latest_data clock s' (Some (PyStr "2021-03-31")) = Ok 3%positive ∧
        get_dated_data_frame clock s' (Some (PyStr "2021-03-31"))
          = Ok (mk_DatedDataFrame (PyDatetime (midnight 2021 3 31)) 3%positive (VStr "px")).
Proof.
  apply (add_data_then_get_latest_data clock store1
           (mk_DatedDataFrame (PyDatetime (midnight 2021 3 31)) 3%positive (VStr "px"))
           (PyStr "2021-03-31") (midnight 2021 3 31)).
  - apply store1_datetime_keyed.
  - reflexivity.
  - reflexivity.
Defined.

(** The same snapshot leaves the answer to ["2021-02-15"] as it was. *)
Lemma add_data_later_keeps_earlier_witness :
  ∃ s', add_data store1 (mk_DatedDataFrame (PyDatetime (midnight 2021 3 31)) 3%positive (VStr "px"))
          = Ok s' ∧
        get_last_data_date s' (PyStr "2021-02-15")
          = get_last_data_date store1 (PyStr "2021-02-15") ∧
        get_latest_data clock s' (Some (PyStr "2021-02-15"))
          = get_latest_data clock store1 (Some (PyStr "2021-02-15")) ∧
        get_dated_data_frame clock s' (Some (PyStr "2021-02-15"))
          = get_dated_data_frame clock store1 (Some (PyStr "2021-02-15")).
Proof.
  apply (add_data_later_keeps_earlier clock store1
           (mk_DatedDataFrame (PyDatetime (midnight 2021 3 31)) 3%positive (VStr "px"))
           (PyStr "2021-02-15") (midnight 2021 2 15)).
  - apply store1_inv.
  - apply store1_datetime_keyed.
  - reflexivity.
  - reflexivity.
  - reflexivity.
Defined.

(** ["2021-02-15"] resolves to 2021-01-31, so ["2021-03-01"] resolves to
    that date or a later one. *)
Lemma get_last_data_date_monotone_witness :
  ∃ k2, get_last_data_date store1 (PyStr "2021-03-01") = Ok k2 ∧
        not_after (PyDatetime (midnight 2021 1 31)) k2.
Proof.
  apply (get_last_data_date_monotone store1 (PyStr "2021-02-15") (PyStr "2021-03-01")
           (midnight 2021 2 15) (midnight 2021 3 1)).
  - apply store1_inv.
  - apply store1_datetime_keyed.
  - reflexivity.
  - reflexivity.
  - reflexivity.
  - reflexivity.
Defined.




Section fields.
Context `{DatetimeLib}.


End fields.


(* --------------------------------------------------------------------- *)
(** ** The schema and the index check of [SecurityLevelData] *)
(* --------------------------------------------------------------------- *)

Lemma py_in_py_keys_from f acc l :
  py_in f (foldl (λ acc x, if py_in x acc then acc else acc ++ [x]) acc l)
  = py_in f acc || py_in f l.
Proof.
  revert acc. induction l as [|x l IH]; intros acc; cbn [foldl].
  - cbn [py_in existsb]. by rewrite orb_false_r.
  - rewrite IH. cbn [py_in existsb]. fold (py_in f l). fold (py_in f acc).
    destruct (py_in x acc) eqn:Hx.
    + destruct (py_eq f x) eqn:Hf; [|done].
      by rewrite (py_in_eq _ _ _ Hf), Hx.
    + rewrite py_in_app. cbn [py_in existsb]. fold (py_in f acc).
      rewrite orb_false_r. by rewrite orb_assoc.
Qed.

(** A label is equal to one of the keys exactly when it is equal to one
    of the labels. *)
Lemma py_in_py_keys f l : py_in f (py_keys l) = py_in f l.
Proof. unfold py_keys. by rewrite py_in_py_keys_from. Qed.

Lemma is_unique_eq l x y :
  is_unique l = true → x ∈ l → y ∈ l → py_eq x y = true → x = y.
Proof.
  induction l as [|a l IH]; cbn [is_unique]; [by intros _ ?%elem_of_nil|].
  intros [Ha Hl]%andb_true_iff Hx Hy He.
  apply negb_true_iff in Ha. pose proof (proj1 (py_in_false _ _) Ha) as Hall.
  apply elem_of_cons in Hx as [->|Hx]; apply elem_of_cons in Hy as [->|Hy]; try done.
  - by rewrite (Hall y Hy) in He.
  - rewrite py_eq_sym in He. by rewrite (Hall x Hx) in He.
  - by apply IH.
Qed.

Lemma dict_of_keys_get_from fl (v : pyval) f (acc : pydict pyval) :
  py_in f fl = true ∨ od_get f acc = Some v →
  od_get f (foldl (λ d x, od_set x v d) acc fl) = Some v.
Proof.
  revert acc. induction fl as [|x fl IH]; intros acc Hf; cbn [foldl].
  - by destruct Hf as [Hf|Hf].
  - apply IH. destruct (py_eq f x) eqn:He.
    + right. rewrite (od_get_eq _ _ _ He). apply od_get_set.
    + destruct Hf as [Hf|Hf].
      * left. cbn [py_in existsb] in Hf. by rewrite He in Hf.
      * right. rewrite od_get_set_ne; [done|]. by rewrite py_eq_sym.
Qed.

Lemma dict_of_keys_get fl v f : py_in f fl = true → dict_get (dict_of_keys fl v) f = v.
Proof.
  intros Hin. unfold dict_get, dict_of_keys. rewrite dict_of_keys_get_from by by left. done.
Qed.

(** Updating the empty [dict] with a [dict] gives its items. *)
Lemma dict_update_empty d : is_unique d.*1 = true → dict_update [] d = d.
Proof. intros Hu. unfold dict_update. by rewrite (od_rebuild [] d). Qed.

Lemma init_metadata_values fl unit def_val units def_vals :
  init_metadata fl unit def_val = Ok (units, def_vals) →
  keyed_once unit = true → keyed_once def_val = true →
  ∀ f, py_in f fl = true →
    dict_get units f = unit_for unit f ∧ dict_get def_vals f = def_val_for def_val f.
Proof.
  unfold init_metadata. intros Hm Hu Hd f Hf.
  destruct unit as [[| | | |u]|du], def_val as [[| |z0|x0|]|dd];
    simpl in Hm, Hu, Hd; try done; injection Hm as <- <-; simpl;
    rewrite ?dict_of_keys_get, ?dict_update_empty by done; done.
Qed.

Lemma init_fields_get_from fl units def_vals acc f :
  (∃ x, py_eq f x = true ∧
        (x ∈ fl ∨
         od_get f acc = Some (mk_DataFrameField x (dict_get units x) (dict_get def_vals x)))) →
  ∃ x, py_eq f x = true ∧
       od_get f (foldl (λ fields f,
                          od_set f (mk_DataFrameField f (dict_get units f) (dict_get def_vals f))
                            fields)
                       acc fl)
         = Some (mk_DataFrameField x (dict_get units x) (dict_get def_vals x)) ∧
       (x ∈ fl ∨
        od_get f acc = Some (mk_DataFrameField x (dict_get units x) (dict_get def_vals x))).
Proof.
  revert acc. induction fl as [|y fl IH]; intros acc (x & He & Hx); cbn [foldl].
  - destruct Hx as [Hx|Hx]; [by apply elem_of_nil in Hx|]. exists x. eauto.
  - destruct (py_eq f y) eqn:Hy.
    + destruct (IH (od_set y (mk_DataFrameField y (dict_get units y) (dict_get def_vals y)) acc))
        as (x' & He' & Hget & Hx').
      { exists y. split; [done|]. right. rewrite (od_get_eq _ _ _ Hy). apply od_get_set. }
      exists x'. split; [done|]. split; [done|]. left.
      destruct Hx' as [Hx'|Hx']; [by right|].
      rewrite (od_get_eq _ _ _ Hy), od_get_set in Hx'. injection Hx' as <- _ _. left.
    + destruct (IH (od_set y (mk_DataFrameField y (dict_get units y) (dict_get def_vals y)) acc))
        as (x' & He' & Hget & Hx').
      { exists x. split; [done|]. destruct Hx as [Hx|Hx].
        - left. apply elem_of_cons in Hx as [->|Hx]; [congruence|done].
        - right. rewrite od_get_set_ne; [done|]. by rewrite py_eq_sym. }
      exists x'. split; [done|]. split; [done|].
      destruct Hx' as [Hx'|Hx']; [left; by right|].
      right. rewrite od_get_set_ne in Hx'; [done|]. by rewrite py_eq_sym.
Qed.

Lemma SecurityLevelData_init_Ok (h : heap) d unit def_val s h' :
  SecurityLevelData_init h d unit def_val = Ok (s, h') →
  ∃ units def_vals,
    init_metadata (columns_tolist (h !!! data_frame d)) unit def_val = Ok (units, def_vals) ∧
    init_index h (data_frame d) SEC_ID = Ok h' ∧
    s = mk_SecurityLevelData
          (mk_DataFrameCollection (DATA_ID d) {[date d := data_frame d]} [date d])
          (mk_DataFrameSchema SEC_ID
             (init_fields (columns_tolist (h !!! data_frame d)) units def_vals)).
Proof.
  unfold SecurityLevelData_init.
  destruct (init_metadata _ unit def_val) as [[units def_vals]|e]; [|done].
  cbn [mbind result_bind INDEX_LABEL].
  destruct (init_index h (data_frame d) SEC_ID) as [h2|e]; [|done].
  cbn [mbind result_bind]. rewrite DataFrameCollection_init_eq. cbn [mbind result_bind].
  intros [= <- <-]. by exists units, def_vals.
Qed.

(** X7. The schema of a constructed store: its index label is [SEC_ID];
    its fields are the column labels the table had when the constructor
    was called, without those equal under [==] to an earlier one; a label
    is declared exactly when it is equal to a column label.  The field
    found for a label [f] carries the name of a column equal to [f] ([f]
    itself when the column labels are unique), the unit given (the [str]
    itself, or what the [dict] gives for [f], [None] without an entry) and
    the default value given in the same way.  A [dict] argument is given
    by its items, no two keys equal. *)
Theorem SecurityLevelData_init_schema (h : heap) (d : DatedDataFrame)
    (unit def_val : pyarg) (s : SecurityLevelData) (h' : heap) :
  SecurityLevelData_init h d unit def_val = Ok (s, h') →
  keyed_once unit = true → keyed_once def_val = true →
  INDEX_LABEL (schema s) = SEC_ID ∧
  get_field_names s = py_keys (columns_tolist (h !!! data_frame d)) ∧
  (∀ f, py_in f (get_field_names s) = py_in f (columns_tolist (h !!! data_frame d))) ∧
  (∀ f, py_in f (columns_tolist (h !!! data_frame d)) = true →
     ∃ name,
       name ∈ columns_tolist (h !!! data_frame d) ∧ py_eq f name = true ∧
       od_get f (FIELDS (schema s))
         = Some (mk_DataFrameField name (unit_for unit f) (def_val_for def_val f)) ∧
       (is_unique (columns_tolist (h !!! data_frame d)) = true →
        f ∈ columns_tolist (h !!! data_frame d) → name = f)).
Proof.
  intros (units & def_vals & Hm & _ & ->)%SecurityLevelData_init_Ok Hu Hd.
  unfold get_field_names. cbn [schema INDEX_LABEL FIELDS].
  rewrite init_fields_keys.
  refine (conj eq_refl (conj eq_refl (conj (λ f, py_in_py_keys f _) _))).
  intros f Hf. apply py_in_true in Hf as Hx. destruct Hx as (x & Hx & He).
  destruct (init_fields_get_from (columns_tolist (h !!! data_frame d)) units def_vals [] f)
    as (name & Hen & Hget & Hname).
  { exists x. split; [done|]. by left. }
  destruct Hname as [Hname|Hname]; [|done].
  exists name. split; [done|]. split; [done|]. split.
  - unfold init_fields. rewrite Hget. f_equal.
    assert (py_in name (columns_tolist (h !!! data_frame d)) = true) as Hn
      by by apply py_in_elem.
    destruct (init_metadata_values _ _ _ _ _ Hm Hu Hd name Hn) as [-> ->].
    f_equal.
    + destruct unit as [[]|du]; try done. unfold unit_for, dict_get.
      by rewrite (od_get_eq _ _ _ Hen).
    + destruct def_val as [[]|dd]; try done. unfold def_val_for, dict_get.
      by rewrite (od_get_eq _ _ _ Hen).
  - intros Hunique Hin. symmetry. by apply (is_unique_eq _ _ _ Hunique Hin Hname).
Qed.

(** X8. The index check of the constructor, for valid arguments: a table
    whose row index is already labelled [SEC_ID] is left as it is, and the
    store holds the caller's reference under the date given, with the
    [DATA_ID] given; a table with neither that index label nor a column
    [SEC_ID] makes the constructor raise [ValueError]. *)
Theorem SecurityLevelData_init_index_check (h : heap) (d : DatedDataFrame)
    (unit def_val : pyarg) (df : DataFrame) :
  h !! data_frame d = Some df →
  (is_None unit = true ∧ is_None def_val = true) ∨
  (unit_ok unit = true ∧ def_val_ok def_val = true) →
  (index_name df = SEC_ID →
     ∃ s, SecurityLevelData_init h d unit def_val = Ok (s, h) ∧
          data (base s) = {[ date d := data_frame d ]} ∧
          data_dates (base s) = [date d] ∧
          self_DATA_ID (base s) = DATA_ID d) ∧
  (index_name df ≠ SEC_ID → SEC_ID ∉ columns_tolist df →
     SecurityLevelData_init h d unit def_val
       = Raise (ValueError "DataFrame must include 'SEC_ID' column" [])).
Proof.
  intros Hl Hargs.
  destruct (init_metadata_valid (columns_tolist df) _ _ Hargs) as [[units def_vals] Hm].
  unfold SecurityLevelData_init. rewrite (lookup_total_correct _ _ _ Hl), Hm.
  cbn [mbind result_bind INDEX_LABEL]. split.
  - intros Hn. rewrite (init_index_labelled _ _ _ Hl Hn). cbn [mbind result_bind].
    rewrite DataFrameCollection_init_eq. cbn [mbind result_bind].
    eexists. split; [reflexivity|]. done.
  - intros Hn Hout. unfold init_index. rewrite (lookup_total_correct _ _ _ Hl).
    cbn [index_names head default from_option id].
    assert ((if decide (index_name df = VNone) then index_name df else index_name df)
            = index_name df) as -> by by case_decide.
    rewrite decide_True by done.
    unfold set_index. by rewrite (find_has_label_None _ _ Hout).
Qed.

(** The table of 2021-01-31 with the unit [USD] and the default [0] for
    [PRICE]. *)
Lemma SecurityLevelData_init_schema_witness :
  ∃ s h', SecurityLevelData_init scenario_heap snapshot_jan (ArgVal (VStr "USD")) price_default
            = Ok (s, h') ∧
          od_get (VStr "PRICE") (FIELDS (schema s))
            = Some (mk_DataFrameField (VStr "PRICE") (VStr "USD") (VInt 0)).
Proof.
  eexists _, _. split; [reflexivity|].
  destruct (SecurityLevelData_init_schema scenario_heap snapshot_jan
              (ArgVal (VStr "USD")) price_default _ _ eq_refl eq_refl eq_refl)
    as (_ & _ & _ & Hfield).
  destruct (Hfield (VStr "PRICE") eq_refl) as (name & _ & _ & Hget & Hname).
  rewrite Hget, (Hname eq_refl); [reflexivity|].
  apply list_elem_of_singleton. reflexivity.
Defined.

(** The table of 2021-01-31, whose index is labelled [SEC_ID], is not
    touched. *)
Lemma SecurityLevelData_init_index_check_witness :
  ∃ s, SecurityLevelData_init scenario_heap snapshot_jan (ArgVal VNone) (ArgVal VNone)
         = Ok (s, scenario_heap).
Proof.
  destruct (SecurityLevelData_init_index_check scenario_heap snapshot_jan
              (ArgVal VNone) (ArgVal VNone) frame_jan eq_refl
              (or_introl (conj eq_refl eq_refl))) as [Hlab _].
  destruct (Hlab eq_refl) as (s & Hs & _).
  exists s. exact Hs.
Defined.

(* --------------------------------------------------------------------- *)
(** ** [apply_columnwise]: the checks, the other broadcast, shared columns *)
(* --------------------------------------------------------------------- *)







Section columnwise_more.
Variable f : binary.







End columnwise_more.




Section columnwise_shared.
Variable f : binary.


End columnwise_shared.




